(** * atm: adding an Alertmanager silence for one, no or many tenants

    A shallow embedding of [cli/silence_add.go] (the [add] action and its
    helpers), of [TypeMatcher]/[TypeMatchers] and of the client constructors
    of [cli/root.go], followed by the properties of matcher parsing, window
    resolution and tenant dispatch.

    Calls that leave the repository (the Alertmanager matcher parser, the Go
    standard library, kingpin, the HTTP client, the network) are fields of
    the record [Env]; [add] is a function of an [Env] and of the command
    structure, and returns the observable run: the submissions attempted,
    the lines printed, and how the command ended. *)

From Stdlib Require Import ZArith.
From stdpp Require Import base strings list gmap.

Set Default Proof Using "Type".

(** ** Go strings used by the command *)

(** The byte 0x0a, written [\n] in the Go format strings. *)
Definition newline : string := String (Ascii.ascii_of_nat 10) EmptyString.

(** The byte 0x22, the double quote. *)
Definition dquote : string := String (Ascii.ascii_of_nat 34) EmptyString.

(** ** Types of the libraries the command is written against *)

(** [pkg/labels] of Alertmanager: the matcher the parser returns. The four
    match types and their textual operators are those of the package. *)
Module labels.

Inductive MatchType : Set :=
| MatchEqual
| MatchNotEqual
| MatchRegexp
| MatchNotRegexp.

#[global] Instance MatchType_eq_dec : EqDecision MatchType.
Proof. solve_decision. Defined.

(** [func (m MatchType) String() string] *)
Definition MatchType_String (t : MatchType) : string :=
  match t with
  | MatchEqual => "="
  | MatchNotEqual => "!="
  | MatchRegexp => "=~"
  | MatchNotRegexp => "!~"
  end.

Record Matcher : Set := mkMatcher {
  Type_ : MatchType;
  Name : string;
  Value : string
}.

End labels.

(** [api/v2/models] of Alertmanager: the wire payload. Every field of the
    Go structures is a pointer; a nil pointer is [None]. *)
Module models.

Record Matcher : Set := mkMatcher {
  IsEqual : option bool;
  IsRegex : option bool;
  Name : option string;
  Value : option string
}.

Definition Matchers : Set := list Matcher.

End models.

(** Instants are counted in nanoseconds; [time.Duration] and
    [model.Duration] are both [int64] nanoseconds. *)
Definition Time : Set := Z.
Definition Duration : Set := Z.

(** [t.After(u)] *)
Definition After (t u : Time) : bool := (u <? t)%Z.

(** [t.Add(d)]; [t.UTC()] keeps the instant. *)
Definition Add (t : Time) (d : Duration) : Time := (t + d)%Z.

Record PostableSilence : Set := mkPostableSilence {
  Matchers : models.Matchers;
  StartsAt : option Time;
  EndsAt : option Time;
  CreatedBy : option string;
  Comment : option string
}.

(** [promconfig.Header] and the part of [promconfig.HTTPClientConfig] the
    command touches: [HTTPHeaders] is a pointer to a [promconfig.Headers]
    structure, which holds a map from header name to header. The pointer may
    be nil ([None]), and so may the map of a structure that is there (the
    [None] of [HeadersMap]): reading a nil map finds no entry, assigning
    into it panics. *)
Record Header : Set := mkHeader { Values : list string }.

#[global] Instance Header_eq_dec : EqDecision Header.
Proof. solve_decision. Defined.

Record Headers : Type := mkHeaders {
  HeadersMap : option (gmap string Header)
}.

Record HTTPClientConfig : Type := mkHTTPClientConfig {
  HTTPHeaders : option Headers;
  (** everything else a configuration file may set, left uninterpreted *)
  otherSettings : string
}.

(** [net/url.URL], the fields [NewAlertmanagerClient] reads. *)
Record URL : Set := mkURL {
  Scheme : string;
  User : option (string * string);
  Host : string;
  Path : string
}.

(** What [NewAlertmanagerClient] hands to the generated API client: the
    address, base path and schemes of the runtime, and the HTTP client,
    represented by the configuration it was built from. *)
Record AlertmanagerAPI : Type := mkAlertmanagerAPI {
  address : string;
  basePath : string;
  schemes : list string;
  httpclient : HTTPClientConfig
}.

(** ** Errors *)

(** The source has no error types, only messages; one constructor per
    [return] of a non-nil error in [add] and [readTenantFromFile]. A
    library error is carried as its message. *)
Inductive error : Set :=
| ErrMatcher (msg : string)            (* line 119: return err *)
| ErrNoMatchers                        (* line 124 *)
| ErrStart (msg : string)              (* line 131: return err *)
| ErrEnd (msg : string)                (* line 142: return err *)
| ErrDuration (msg : string)           (* line 147: return err *)
| ErrDurationZero                      (* line 150 *)
| ErrDurationExceedsMax (duration maxDuration : string)  (* line 156 *)
| ErrStartAfterEnd                     (* line 161 *)
| ErrCommentRequired                   (* line 165 *)
| ErrPostTenant (tenant msg : string)  (* line 192 *)
| ErrTenantFile (tenantFile msg : string) (* line 233, returned at 200 *)
| ErrPost (msg : string).              (* line 220 *)

(** [err.Error()] *)
Definition Error (e : error) : string :=
  match e with
  | ErrMatcher msg | ErrStart msg | ErrEnd msg | ErrDuration msg => msg
  | ErrNoMatchers => "no matchers specified"
  | ErrDurationZero => "silence duration must be greater than 0"
  | ErrDurationExceedsMax d md =>
      "silence duration '" +:+ d +:+ "' couldn't be greater than '" +:+ md +:+ "'"
  | ErrStartAfterEnd => "silence cannot start after it ends"
  | ErrCommentRequired => "comment required by config"
  | ErrPostTenant t msg =>
      "Unable to add silence for '" +:+ t +:+ "' tenant: " +:+ msg
  | ErrTenantFile f msg =>
      "Unable to read tenant file '" +:+ f +:+ "': " +:+ msg
  | ErrPost msg => "Unable to add silence: " +:+ msg
  end.

(** The names the design documents use for these failures. *)
Inductive ErrorKind : Set :=
| MatcherSyntaxError
| NoMatchersError
| TimestampSyntaxError
| InvalidDurationError
| DurationExceedsMaxError
| InvalidWindowError
| CommentRequiredError
| TenantFileReadError
| SubmissionError.

#[global] Instance ErrorKind_eq_dec : EqDecision ErrorKind.
Proof. solve_decision. Defined.

Definition kind (e : error) : ErrorKind :=
  match e with
  | ErrMatcher _ => MatcherSyntaxError
  | ErrNoMatchers => NoMatchersError
  | ErrStart _ | ErrEnd _ => TimestampSyntaxError
  | ErrDuration _ | ErrDurationZero => InvalidDurationError
  | ErrDurationExceedsMax _ _ => DurationExceedsMaxError
  | ErrStartAfterEnd => InvalidWindowError
  | ErrCommentRequired => CommentRequiredError
  | ErrTenantFile _ _ => TenantFileReadError
  | ErrPostTenant _ _ | ErrPost _ => SubmissionError
  end.

(** [kingpin.Fatalf] prints its message and exits the process with status
    1; one constructor per call reachable from [add]. *)
Inductive fatal : Set :=
| ConflictingTenantConfig              (* silence_add.go line 182 *)
| FatalLoadHTTPConfig (msg : string)   (* root.go line 73 *)
| FatalBasicAuthAndConfigFile          (* root.go line 96 *)
| FatalNewHTTPClient (msg : string).   (* root.go line 106 *)

Definition Fatalf (f : fatal) : string :=
  match f with
  | ConflictingTenantConfig => "tenant and tenant.file are mutually exclusive"
  | FatalLoadHTTPConfig msg => "failed to load HTTP config file: " +:+ msg
  | FatalBasicAuthAndConfigFile =>
      "basic authentication and http.config.file are mutually exclusive"
  | FatalNewHTTPClient msg => "failed to create a new HTTP client: " +:+ msg
  end.

(** A fallible step: the value, or the error [add] returns. *)
Definition result (A : Type) : Type := A + error.

Definition bind {A B : Type} (r : result A) (k : A → result B) : result B :=
  match r with
  | inl a => k a
  | inr e => inr e
  end.

Notation "'let?' x := e 'in' k" := (bind e (fun x => k))
  (at level 10, x name, e at level 100, k at level 200).

(** ** The environment of one invocation *)

(** What [resolver.Bind] (root.go, lines 127 to 137) took from the
    configuration files for the flags of [silence add], legacy names
    renamed: a value found there replaces the [Default] of its flag before
    the command line is parsed. [None] when the files say nothing of a
    flag. The positional matchers are no flag and cannot be set there. *)
Record configDefaults : Set := mkConfigDefaults {
  config_tenant : option string;
  config_tenant_http_header : option string;
  config_tenant_file : option string;
  config_author : option string;
  config_require_comment : option bool;
  config_duration : option string;
  config_max_duration : option string;
  config_start : option string;
  config_end : option string;
  config_comment : option string
}.

Record Env : Type := mkEnv {
  (** [compat.Matcher(s, "cli")]: the matcher or the parser's error *)
  compat_Matcher : string → labels.Matcher + string;
  (** [strconv.Quote] *)
  strconv_Quote : string → string;
  (** [time.Now()], read once *)
  time_Now : Time;
  (** [time.Parse(time.RFC3339, s)] *)
  time_Parse : string → Time + string;
  (** [model.ParseDuration]: both results of the Go call, the duration and
      the error ([None] is nil) *)
  model_ParseDuration : string → Duration * option string;
  (** [user.Current()], the user name or the error *)
  user_Current : string + string;
  (** the defaults bound from the configuration files *)
  configFlags : configDefaults;
  (** [path.Join] *)
  path_Join : string → string → string;
  (** the package variables of root.go, set from the global flags; the
      URL is the one [alertmanagerURL] points to ([requireAlertManagerURL]
      ends the process when the pointer is nil) *)
  alertmanagerURL : URL;
  httpConfigFile : string;
  (** [promconfig.LoadHTTPConfigFile] *)
  LoadHTTPConfigFile : string → HTTPClientConfig + string;
  (** [promconfig.NewClientFromConfig]: its error, if any *)
  NewClientFromConfig : HTTPClientConfig → option string;
  (** [os.Open]: the content of the file, or the error *)
  os_Open : string → string + string;
  (** the tokens a [bufio.Scanner] with [bufio.ScanLines] yields *)
  bufio_ScanLines : string → list string;
  (** [amclient.Silence.PostSilences]: the identifier of the silence, or
      the error. The first argument counts the submissions already made in
      this run: the network may answer each call differently. *)
  PostSilences : nat → AlertmanagerAPI → PostableSilence → string + string
}.

(** ** The command structure and its flags *)

Record silenceAddCmd : Set := mkSilenceAddCmd {
  author : string;
  requireComment : bool;
  duration : string;
  maxDuration : string;
  start : string;
  end_ : string;
  comment : string;
  matchers : list string;
  tenant : string;
  tenantFile : string;
  tenantHTTPHeader : string
}.

(** The flags as parsed from the command line: [None] when a flag was not
    given. *)
Record flags : Set := mkFlags {
  flag_tenant : option string;
  flag_tenant_http_header : option string;
  flag_tenant_file : option string;
  flag_author : option string;
  flag_require_comment : option bool;
  flag_duration : option string;
  flag_max_duration : option string;
  flag_start : option string;
  flag_end : option string;
  flag_comment : option string;
  arg_matcher_groups : list string
}.

(** [username] *)
Definition username (E : Env) : string :=
  match user_Current E with
  | inr _ => ""
  | inl name => name
  end.

(** The value of a flag variable: the value given on the command line;
    without one, the default bound from the configuration files; without
    one, the [Default] declared with the flag (the zero value of the type
    when none is declared). *)
Definition flagValue {A : Type} (declared : A) (bound given : option A) : A :=
  default (default declared bound) given.

(** [configureSilenceAddCmd], lines 88 to 98, as [Execute] uses it: the
    declared defaults are replaced by those of the configuration files
    (root.go, lines 127 to 137) before the command line is parsed (lines
    139 to 142). *)
Definition configureSilenceAddCmd (E : Env) (f : flags) : silenceAddCmd :=
  let cf := configFlags E in
  {| tenant := flagValue "" (config_tenant cf) (flag_tenant f);
     tenantHTTPHeader :=
       flagValue "X-Scope-OrgID" (config_tenant_http_header cf)
         (flag_tenant_http_header f);
     tenantFile := flagValue "" (config_tenant_file cf) (flag_tenant_file f);
     author := flagValue (username E) (config_author cf) (flag_author f);
     requireComment :=
       flagValue true (config_require_comment cf) (flag_require_comment f);
     duration := flagValue "1h" (config_duration cf) (flag_duration f);
     maxDuration := flagValue "12h" (config_max_duration cf) (flag_max_duration f);
     start := flagValue "" (config_start cf) (flag_start f);
     end_ := flagValue "" (config_end cf) (flag_end f);
     comment := flagValue "" (config_comment cf) (flag_comment f);
     matchers := arg_matcher_groups f |}.

(** ** TypeMatcher and TypeMatchers *)

Definition TypeMatcher (matcher : labels.Matcher) : models.Matcher :=
  let name := labels.Name matcher in
  let value := labels.Value matcher in
  let isEqual :=
    bool_decide (labels.Type_ matcher = labels.MatchEqual)
    || bool_decide (labels.Type_ matcher = labels.MatchRegexp) in
  let isRegex :=
    bool_decide (labels.Type_ matcher = labels.MatchRegexp)
    || bool_decide (labels.Type_ matcher = labels.MatchNotRegexp) in
  {| models.Name := Some name;
     models.Value := Some value;
     models.IsEqual := Some isEqual;
     models.IsRegex := Some isRegex |}.

Definition TypeMatchers (matchers : list labels.Matcher) : models.Matchers :=
  TypeMatcher <$> matchers.

(** ** add: matcher parsing, lines 105 to 125 *)

(** Lines 105 to 113: [c.matchers] after the first element has been
    looked at. *)
Definition rewriteFirst (E : Env) (ms : list string) : list string :=
  match ms with
  | [] => []
  | m0 :: rest =>
      match compat_Matcher E m0 with
      | inr _ => ("alertname=" +:+ strconv_Quote E m0) :: rest
      | inl _ => m0 :: rest
      end
  end.

(** Lines 115 to 122: the loop stops at the first string that fails. *)
Fixpoint parseEach (E : Env) (ms : list string) : result (list labels.Matcher) :=
  match ms with
  | [] => inl []
  | s :: rest =>
      match compat_Matcher E s with
      | inr err => inr (ErrMatcher err)
      | inl m =>
          let? parsed := parseEach E rest in
          inl (m :: parsed)
      end
  end.

Definition parseMatchers (E : Env) (ms : list string) : result (list labels.Matcher) :=
  let? parsed := parseEach E (rewriteFirst E ms) in
  if bool_decide (length parsed < 1) then inr ErrNoMatchers else inl parsed.

(** ** add: the window, lines 127 to 162 *)

(** Lines 127 to 136. *)
Definition resolveStart (E : Env) (c : silenceAddCmd) : result Time :=
  if bool_decide (start c ≠ "") then
    match time_Parse E (start c) with
    | inr err => inr (ErrStart err)
    | inl t => inl t
    end
  else inl (time_Now E).

(** Lines 145 to 152, the first half of the branch without an explicit
    end: the parsed duration and the value assigned to [endsAt]. *)
Definition durationEnd (E : Env) (c : silenceAddCmd) (startsAt : Time)
  : result (Duration * Time) :=
  match model_ParseDuration E (duration c) with
  | (_, Some err) => inr (ErrDuration err)
  | (d, None) =>
      if bool_decide (d = 0%Z) then inr ErrDurationZero
      else inl (d, Add startsAt d)
  end.

(** Lines 154 to 157: the error of the second parse is dropped, [md] is
    whatever value came with it. *)
Definition checkMaxDuration (E : Env) (c : silenceAddCmd) (d : Duration)
  : result unit :=
  let md := fst (model_ParseDuration E (maxDuration c)) in
  if bool_decide (d > md)%Z
  then inr (ErrDurationExceedsMax (duration c) (maxDuration c))
  else inl ().

(** Lines 138 to 158. *)
Definition resolveEnd (E : Env) (c : silenceAddCmd) (startsAt : Time)
  : result Time :=
  if bool_decide (end_ c ≠ "") then
    match time_Parse E (end_ c) with
    | inr err => inr (ErrEnd err)
    | inl t => inl t
    end
  else
    let? de := durationEnd E c startsAt in
    let? _ := checkMaxDuration E c de.1 in
    inl de.2.

(** Lines 160 to 162. *)
Definition checkWindow (startsAt endsAt : Time) : result unit :=
  if After startsAt endsAt then inr ErrStartAfterEnd else inl ().

(** Lines 164 to 166. *)
Definition checkComment (c : silenceAddCmd) : result unit :=
  if requireComment c && bool_decide (comment c = "")
  then inr ErrCommentRequired else inl ().

(** Lines 168 to 178. *)
Definition buildSilence (c : silenceAddCmd) (parsed : list labels.Matcher)
    (startsAt endsAt : Time) : PostableSilence :=
  {| Matchers := TypeMatchers parsed;
     StartsAt := Some startsAt;
     EndsAt := Some endsAt;
     CreatedBy := Some (author c);
     Comment := Some (comment c) |}.

(** Lines 105 to 179: everything [add] does before it looks at the tenant
    configuration. Nothing is printed or sent here. *)
Definition prepare (E : Env) (c : silenceAddCmd) : result PostableSilence :=
  let? parsed := parseMatchers E (matchers c) in
  let? startsAt := resolveStart E c in
  let? endsAt := resolveEnd E c startsAt in
  let? _ := checkWindow startsAt endsAt in
  let? _ := checkComment c in
  inl (buildSilence c parsed startsAt endsAt).

(** ** What a run of the command shows *)

Inductive event : Type :=
| Post (amclient : AlertmanagerAPI) (ps : PostableSilence)
    (* a call of amclient.Silence.PostSilences *)
| Printf (text : string).
    (* a call of fmt.Printf *)

Inductive exit : Set :=
| Return (err : option error)   (* add returns; None is nil *)
| Exit (f : fatal)              (* kingpin.Fatalf ends the process *)
| Panic.                        (* assignment to entry in nil map *)

Record run : Type := mkRun {
  trace : list event;
  status : exit
}.

(** ** root.go: the client constructors *)

(** [NewAlertmanagerClientConfig] *)
Definition NewAlertmanagerClientConfig (E : Env) : HTTPClientConfig + fatal :=
  if bool_decide (httpConfigFile E ≠ "") then
    match LoadHTTPConfigFile E (httpConfigFile E) with
    | inr err => inr (FatalLoadHTTPConfig err)
    | inl httpConfig => inl httpConfig
    end
  else inl {| HTTPHeaders := None; otherSettings := "" |}.

Definition defaultAmHost : string := "localhost".
Definition defaultAmPort : string := "9093".
Definition defaultAmApiv2path : string := "/api/v2".

(** [NewAlertmanagerClient]. The basic authentication set on the first
    runtime is not carried by the runtime the function returns, which is
    built anew by [NewWithClient]. *)
Definition NewAlertmanagerClient (E : Env) (httpConfig : HTTPClientConfig)
  : AlertmanagerAPI + fatal :=
  let amURL := alertmanagerURL E in
  let address :=
    if bool_decide (Host amURL ≠ "") then Host amURL
    else defaultAmHost +:+ ":" +:+ defaultAmPort in
  let schemes :=
    if bool_decide (Scheme amURL ≠ "") then [Scheme amURL] else ["http"] in
  if bool_decide (User amURL ≠ None) && bool_decide (httpConfigFile E ≠ "")
  then inr FatalBasicAuthAndConfigFile
  else
    match NewClientFromConfig E httpConfig with
    | Some err => inr (FatalNewHTTPClient err)
    | None =>
        inl {| address := address;
               basePath := path_Join E (Path amURL) defaultAmApiv2path;
               schemes := schemes;
               httpclient := httpConfig |}
    end.

(** ** silence_add.go: the tenant helpers *)

(** [readTenantFromFile] *)
Definition readTenantFromFile (E : Env) (tenantFile : string)
  : result (list string) :=
  match os_Open E tenantFile with
  | inr err => inr (ErrTenantFile tenantFile err)
  | inl content => inl (bufio_ScanLines E content)
  end.

(** [setHTTPTenantHeader]: a fresh structure with a one-entry map when the
    configuration has no headers (line 247 tests the pointer), an assignment
    into the map of the existing structure otherwise (line 254). The
    assignment panics when that map is nil: the result is then [None]. *)
Definition setHTTPTenantHeader (httpConfig : HTTPClientConfig)
    (tenant tenantHTTPHeader : string) : option HTTPClientConfig :=
  match HTTPHeaders httpConfig with
  | None =>
      Some {| HTTPHeaders :=
                Some {| HeadersMap :=
                          Some {[ tenantHTTPHeader := {| Values := [tenant] |} ]} |};
              otherSettings := otherSettings httpConfig |}
  | Some headers =>
      match HeadersMap headers with
      | None => None
      | Some m =>
          Some {| HTTPHeaders :=
                    Some {| HeadersMap :=
                              Some (<[ tenantHTTPHeader := {| Values := [tenant] |} ]> m) |};
                  otherSettings := otherSettings httpConfig |}
      end
  end.

(** ** add: dispatch, lines 181 to 225 *)

(** Lines 208 to 212: the line printed for tenant [t], by the outcome of
    its submission. *)
Definition reportLine (t : string) (outcome : string + string) : string :=
  match outcome with
  | inr err =>
      "Unable to add silence for '" +:+ t +:+ "' tenant: " +:+ err +:+ newline
  | inl silenceID =>
      "Silence added for '" +:+ t +:+ "' tenant: " +:+ silenceID +:+ newline
  end.

(** Lines 203 to 214, then line 225. [n] counts the submissions made so
    far; [httpConfig] is the configuration as the previous iteration left
    it. After either outcome of a submission the loop goes on with the
    next tenant. *)
Fixpoint tenantLoop (E : Env) (c : silenceAddCmd) (ps : PostableSilence)
    (httpConfig : HTTPClientConfig) (n : nat) (tenants : list string) : run :=
  match tenants with
  | [] => {| trace := []; status := Return None |}
  | t :: rest =>
      match setHTTPTenantHeader httpConfig t (tenantHTTPHeader c) with
      | None => {| trace := []; status := Panic |}
      | Some httpConfig =>
          match NewAlertmanagerClient E httpConfig with
          | inr f => {| trace := []; status := Exit f |}
          | inl amclient =>
              let line := reportLine t (PostSilences E n amclient ps) in
              let r := tenantLoop E c ps httpConfig (S n) rest in
              {| trace := Post amclient ps :: Printf line :: trace r;
                 status := status r |}
          end
      end
  end.

(** Lines 181 to 225. *)
Definition dispatch (E : Env) (c : silenceAddCmd) (ps : PostableSilence) : run :=
  if bool_decide (tenant c ≠ "") && bool_decide (tenantFile c ≠ "")
  then {| trace := []; status := Exit ConflictingTenantConfig |}
  else
    match NewAlertmanagerClientConfig E with
    | inr f => {| trace := []; status := Exit f |}
    | inl httpConfig =>
        if bool_decide (tenant c ≠ "") then
          match setHTTPTenantHeader httpConfig (tenant c) (tenantHTTPHeader c) with
          | None => {| trace := []; status := Panic |}
          | Some httpConfig =>
              match NewAlertmanagerClient E httpConfig with
              | inr f => {| trace := []; status := Exit f |}
              | inl amclient =>
                  match PostSilences E 0 amclient ps with
                  | inr err =>
                      {| trace := [Post amclient ps];
                         status := Return (Some (ErrPostTenant (tenant c) err)) |}
                  | inl silenceID =>
                      {| trace :=
                           [Post amclient ps;
                            Printf ("Silence added for '" +:+ tenant c
                                     +:+ "' tenant: " +:+ silenceID)];
                         status := Return None |}
                  end
              end
          end
        else if bool_decide (tenantFile c ≠ "") then
          match readTenantFromFile E (tenantFile c) with
          | inr err => {| trace := []; status := Return (Some err) |}
          | inl tenants => tenantLoop E c ps httpConfig 0 tenants
          end
        else
          match NewAlertmanagerClient E httpConfig with
          | inr f => {| trace := []; status := Exit f |}
          | inl amclient =>
              match PostSilences E 0 amclient ps with
              | inr err =>
                  {| trace := [Post amclient ps];
                     status := Return (Some (ErrPost err)) |}
              | inl silenceID =>
                  {| trace :=
                       [Post amclient ps;
                        Printf ("Silence added: " +:+ silenceID)];
                     status := Return None |}
              end
          end
    end.

(** [add] *)
Definition add (E : Env) (c : silenceAddCmd) : run :=
  match prepare E c with
  | inr err => {| trace := []; status := Return (Some err) |}
  | inl ps => dispatch E c ps
  end.

(** ** Reading a trace *)

(** The submissions of a trace, in order. *)
Definition posts (tr : list event) : list (AlertmanagerAPI * PostableSilence) :=
  omap (λ ev, match ev with Post a ps => Some (a, ps) | Printf _ => None end) tr.

(** The lines printed, in order. *)
Definition printed (tr : list event) : list string :=
  omap (λ ev, match ev with Printf s => Some s | Post _ _ => None end) tr.

(** The header [h] of a configuration, if it sets it; a nil pointer and a
    nil map set none. *)
Definition configHeader (h : string) (httpConfig : HTTPClientConfig)
  : option Header :=
  match HTTPHeaders httpConfig with
  | Some headers =>
      match HeadersMap headers with
      | Some m => m !! h
      | None => None
      end
  | None => None
  end.

(** The header [h] a client sends, if its configuration sets it. *)
Definition headerOf (h : string) (a : AlertmanagerAPI) : option Header :=
  configHeader h (httpclient a).

(** ** A small environment to run the command on examples

    Stand-ins for the libraries, defined on the inputs the examples use:
    matchers of the form name, operator, value, quoted or not; durations of one
    number and one unit; two timestamps. *)
Module Sample.

(** Splits at the first operator, trying [=~], [!~], [!=], [=] in that
    order at each position. *)
Fixpoint splitOp (name s : string)
  : option (string * labels.MatchType * string) :=
  match s with
  | EmptyString => None
  | String a rest =>
      if String.prefix "=~" s then
        Some (name, labels.MatchRegexp, String.substring 2 (String.length s - 2) s)
      else if String.prefix "!~" s then
        Some (name, labels.MatchNotRegexp, String.substring 2 (String.length s - 2) s)
      else if String.prefix "!=" s then
        Some (name, labels.MatchNotEqual, String.substring 2 (String.length s - 2) s)
      else if String.prefix "=" s then
        Some (name, labels.MatchEqual, rest)
      else splitOp (name +:+ String a EmptyString) rest
  end.

(** The value between the quotes, when [value] starts and ends with
    one. *)
Definition unquoted (value : string) : option string :=
  if String.prefix dquote value
     && bool_decide (2 ≤ String.length value)
     && bool_decide (String.substring (String.length value - 1) 1 value = dquote)
  then Some (String.substring 1 (String.length value - 2) value)
  else None.

(** Accepts a non-empty name, an operator and a value; a value that
    starts with a quote has to end with one, and both are removed. *)
Definition Matcher (s : string) : labels.Matcher + string :=
  match splitOp "" s with
  | Some (name, ty, value) =>
      if bool_decide (name = "") then inr ("bad matcher format: " +:+ s)
      else if String.prefix dquote value then
        match unquoted value with
        | Some v =>
            inl {| labels.Type_ := ty; labels.Name := name; labels.Value := v |}
        | None => inr ("bad matcher format: " +:+ s)
        end
      else inl {| labels.Type_ := ty; labels.Name := name; labels.Value := value |}
  | None => inr ("bad matcher format: " +:+ s)
  end.

(** Quotes a string of printable ASCII without quote or backslash. *)
Definition Quote (s : string) : string := dquote +:+ s +:+ dquote.

Definition digit (a : Ascii.ascii) : option Z :=
  let n := Z.of_nat (Ascii.nat_of_ascii a) in
  if bool_decide (48 ≤ n ≤ 57)%Z then Some (n - 48)%Z else None.

(** The leading digits of [s] as a number, and what follows them. *)
Fixpoint digits (acc : Z) (s : string) : Z * string :=
  match s with
  | EmptyString => (acc, s)
  | String a rest =>
      match digit a with
      | Some v => digits (10 * acc + v)%Z rest
      | None => (acc, s)
      end
  end.

Definition unit_ns (u : string) : option Z :=
  if bool_decide (u = "ms") then Some 1000000%Z
  else if bool_decide (u = "s") then Some 1000000000%Z
  else if bool_decide (u = "m") then Some 60000000000%Z
  else if bool_decide (u = "h") then Some 3600000000000%Z
  else if bool_decide (u = "d") then Some 86400000000000%Z
  else None.

(** Defined on one number followed by one unit and on the string ["0"],
    fewer strings than the library accepts; elsewhere it returns, as
    the library does on a string it refuses, the zero duration together
    with the error. *)
Definition ParseDuration (s : string) : Duration * option string :=
  if bool_decide (s = "0") then (0%Z, None)
  else if bool_decide (s = "") then (0%Z, Some "empty duration string")
  else
    match s with
    | String a _ =>
        match digit a, digits 0 s with
        | Some _, (v, u) =>
            match unit_ns u with
            | Some mult => ((v * mult)%Z, None)
            | None => (0%Z, Some ("not a valid duration string: " +:+ s))
            end
        | None, _ => (0%Z, Some ("not a valid duration string: " +:+ s))
        end
    | EmptyString => (0%Z, Some "empty duration string")
    end.

Definition second : Z := 1000000000.

Definition Parse (s : string) : Time + string :=
  if bool_decide (s = "2024-01-01T00:00:00Z") then inl (1704067200 * second)%Z
  else if bool_decide (s = "2024-01-01T01:00:00Z") then inl (1704070800 * second)%Z
  else inr ("parsing time " +:+ s +:+ ": cannot parse").

(** The network refuses the tenant [a] and accepts every other one. *)
Definition Post (n : nat) (amclient : AlertmanagerAPI) (ps : PostableSilence)
  : string + string :=
  if bool_decide (headerOf "X-Scope-OrgID" amclient = Some {| Values := ["a"] |})
  then inr "connection refused"
  else inl "1fb1199b-6aec-4575-b6d4-cc5631b77326".

(** One tenant file, [tenants.conf], with the lines [a] and [b]. *)
Definition Open (name : string) : string + string :=
  if bool_decide (name = "tenants.conf") then inl ("a" +:+ newline +:+ "b" +:+ newline)
  else inr ("open " +:+ name +:+ ": no such file or directory").

Fixpoint lines (cur s : string) : list string :=
  match s with
  | EmptyString => if bool_decide (cur = "") then [] else [cur]
  | String a rest =>
      if bool_decide (a = Ascii.ascii_of_nat 10) then cur :: lines "" rest
      else lines (cur +:+ String a EmptyString) rest
  end.

(** No configuration file, or files that set none of the flags. *)
Definition noConfig : configDefaults :=
  {| config_tenant := None; config_tenant_http_header := None;
     config_tenant_file := None; config_author := None;
     config_require_comment := None; config_duration := None;
     config_max_duration := None; config_start := None; config_end := None;
     config_comment := None |}.

Definition env : Env :=
  {| compat_Matcher := Matcher;
     strconv_Quote := Quote;
     time_Now := (1704067200 * second + 1)%Z;
     time_Parse := Parse;
     model_ParseDuration := ParseDuration;
     user_Current := inl "fgouteroux";
     configFlags := noConfig;
     path_Join := λ a b, a +:+ b;
     alertmanagerURL :=
       {| Scheme := "http"; User := None; Host := "localhost:9093"; Path := "" |};
     httpConfigFile := "";
     LoadHTTPConfigFile := λ _, inr "no such file";
     NewClientFromConfig := λ _, None;
     os_Open := Open;
     bufio_ScanLines := lines "";
     PostSilences := Post |}.

(** [atm silence add ...] with no flag given. *)
Definition noFlags (args : list string) : flags :=
  {| flag_tenant := None; flag_tenant_http_header := None;
     flag_tenant_file := None; flag_author := None;
     flag_require_comment := None; flag_duration := None;
     flag_max_duration := None; flag_start := None; flag_end := None;
     flag_comment := None; arg_matcher_groups := args |}.

End Sample.

(** ** Definitions used to state the properties *)

(** The limit [add] compares with: the first result of parsing
    [maxDuration], whether or not the parse reported an error. *)
Definition limit (E : Env) (c : silenceAddCmd) : Duration :=
  (model_ParseDuration E (maxDuration c)).1.

(** The command with other strings for its duration and its limit. *)
Definition setDurations (c : silenceAddCmd) (d md : string) : silenceAddCmd :=
  {| author := author c; requireComment := requireComment c;
     duration := d; maxDuration := md;
     start := start c; end_ := end_ c; comment := comment c;
     matchers := matchers c; tenant := tenant c; tenantFile := tenantFile c;
     tenantHTTPHeader := tenantHTTPHeader c |}.

(** The HTTP client can be built, whatever the headers: neither of the two
    [Fatalf] of [NewAlertmanagerClient] is reached. *)
Definition clientsAvailable (E : Env) : Prop :=
  ∀ httpConfig, ∃ a, NewAlertmanagerClient E httpConfig = inl a.

(** What the loop does for the tenant [t] met after [i] submissions, when
    [httpConfig] is the configuration the loop started from. *)
Definition attempt (E : Env) (c : silenceAddCmd) (ps : PostableSilence)
    (httpConfig : HTTPClientConfig) (i : nat) (t : string) : list event :=
  match setHTTPTenantHeader httpConfig t (tenantHTTPHeader c) with
  | Some httpConfig =>
      match NewAlertmanagerClient E httpConfig with
      | inl amclient =>
          [Post amclient ps; Printf (reportLine t (PostSilences E i amclient ps))]
      | inr _ => []
      end
  | None => []
  end.

(** The tenant headers of the submissions of a trace, in order. *)
Definition attempted (h : string) (tr : list event) : list (option Header) :=
  (λ p, headerOf h p.1) <$> posts tr.

(** The kinds of error the preparation can end with. *)
Definition validationKind (k : ErrorKind) : bool :=
  match k with
  | MatcherSyntaxError | NoMatchersError | TimestampSyntaxError
  | InvalidDurationError | DurationExceedsMaxError | InvalidWindowError
  | CommentRequiredError => true
  | TenantFileReadError | SubmissionError => false
  end.

(** The flags with another value, or none, for [--tenant]. *)
Definition setTenantFlag (f : flags) (v : option string) : flags :=
  {| flag_tenant := v;
     flag_tenant_http_header := flag_tenant_http_header f;
     flag_tenant_file := flag_tenant_file f; flag_author := flag_author f;
     flag_require_comment := flag_require_comment f;
     flag_duration := flag_duration f;
     flag_max_duration := flag_max_duration f; flag_start := flag_start f;
     flag_end := flag_end f; flag_comment := flag_comment f;
     arg_matcher_groups := arg_matcher_groups f |}.

(** ** Command lines of the examples *)

(** A command with a comment, one matcher, no start and no end: durations
    [bogus], [0] and [10m], the last one submitted for the tenants of
    [tenants.conf]. *)
Definition withDuration (d md : string) : flags :=
  {| flag_tenant := None; flag_tenant_http_header := None;
     flag_tenant_file := Some "tenants.conf"; flag_author := None;
     flag_require_comment := None; flag_duration := Some d;
     flag_max_duration := Some md; flag_start := None; flag_end := None;
     flag_comment := Some "x"; arg_matcher_groups := ["alertname=foo"] |}.

(** A command with a start and an end, a comment, one matcher and a
    tenant file. *)
Definition withWindow (s e d md : string) : flags :=
  {| flag_tenant := None; flag_tenant_http_header := None;
     flag_tenant_file := Some "tenants.conf"; flag_author := None;
     flag_require_comment := None; flag_duration := Some d;
     flag_max_duration := Some md; flag_start := Some s; flag_end := Some e;
     flag_comment := Some "x"; arg_matcher_groups := ["alertname=foo"] |}.

(** A tenant, a tenant file, a comment and the given matchers. *)
Definition bothTenants (args : list string) (cmt : string) : flags :=
  {| flag_tenant := Some "a"; flag_tenant_http_header := None;
     flag_tenant_file := Some "tenants.conf"; flag_author := None;
     flag_require_comment := None; flag_duration := None;
     flag_max_duration := None; flag_start := None; flag_end := None;
     flag_comment := Some cmt; arg_matcher_groups := args |}.

(** A comment, a tenant file, the default duration and the given
    matchers. *)
Definition withDurationArgs (args : list string) : flags :=
  {| flag_tenant := None; flag_tenant_http_header := None;
     flag_tenant_file := Some "tenants.conf"; flag_author := None;
     flag_require_comment := None; flag_duration := None;
     flag_max_duration := None; flag_start := None; flag_end := None;
     flag_comment := Some "x"; arg_matcher_groups := args |}.

(** A run that returns the error [e], and one that [Fatalf] ends, both
    before anything is sent or printed. *)
Definition failed (e : error) : run := {| trace := []; status := Return (Some e) |}.

Definition exited (f : fatal) : run := {| trace := []; status := Exit f |}.

(** ** TypeMatchers, slot by slot *)

(** [TypeMatchers] as the source writes it: [make] gives a slice of
    [len(matchers)] nil pointers, and the loop assigns slot [i] for the
    [i]-th matcher. An assignment is stdpp's list insert; the index is
    always within the slice here. *)
Fixpoint assignTypeMatchers (i : nat) (matchers : list labels.Matcher)
    (typeMatchers : list (option models.Matcher)) : list (option models.Matcher) :=
  match matchers with
  | [] => typeMatchers
  | matcher :: rest =>
      assignTypeMatchers (S i) rest (<[i := Some (TypeMatcher matcher)]> typeMatchers)
  end.

Definition TypeMatchersSlice (matchers : list labels.Matcher)
  : list (option models.Matcher) :=
  assignTypeMatchers 0 matchers (replicate (length matchers) None).

(** ** root.go: requireAlertManagerURL *)

(** The [Clause] of a kingpin parse element: a flag, an argument or a
    command, each with the name of its model. *)
Inductive Clause : Set :=
| FlagClause (name : string)
| ArgClause (name : string)
| CmdClause (name : string).

(** The loop of lines 44 to 53: whether it returns nil from inside. *)
Fixpoint helpFlagSet (elements : list Clause) : bool :=
  match elements with
  | [] => false
  | FlagClause name :: rest =>
      if bool_decide (name = "help") || bool_decide (name = "help-long")
         || bool_decide (name = "help-man")
      then true
      else helpFlagSet rest
  | _ :: rest => helpFlagSet rest
  end.

(** [requireAlertManagerURL]: [None] when it returns (always nil), the
    message of [kingpin.Fatalf] when it ends the process. The first
    argument is the package variable [alertmanagerURL], a pointer. *)
Definition requireAlertManagerURL (alertmanagerURL : option URL)
    (elements : list Clause) : option string :=
  if helpFlagSet elements then None
  else if bool_decide (alertmanagerURL = None)
  then Some "required flag --alertmanager.url not provided"
  else None.

(** The names on which the loop returns. *)
Definition isHelpFlag (name : string) : Prop :=
  name = "help" ∨ name = "help-long" ∨ name = "help-man".

(** ** More definitions used to state properties *)

(** The command with another list of matchers. *)
Definition setMatchers (c : silenceAddCmd) (ms : list string) : silenceAddCmd :=
  {| author := author c; requireComment := requireComment c;
     duration := duration c; maxDuration := maxDuration c;
     start := start c; end_ := end_ c; comment := comment c;
     matchers := ms; tenant := tenant c; tenantFile := tenantFile c;
     tenantHTTPHeader := tenantHTTPHeader c |}.

(** The flags with another value, or none, for [--tenant.file]. *)
Definition setTenantFileFlag (f : flags) (v : option string) : flags :=
  {| flag_tenant := flag_tenant f;
     flag_tenant_http_header := flag_tenant_http_header f;
     flag_tenant_file := v; flag_author := flag_author f;
     flag_require_comment := flag_require_comment f;
     flag_duration := flag_duration f;
     flag_max_duration := flag_max_duration f; flag_start := flag_start f;
     flag_end := flag_end f; flag_comment := flag_comment f;
     arg_matcher_groups := arg_matcher_groups f |}.

(** The environment with another reading of the clock. *)
Definition setNow (E : Env) (now : Time) : Env :=
  {| compat_Matcher := compat_Matcher E;
     strconv_Quote := strconv_Quote E;
     time_Now := now;
     time_Parse := time_Parse E;
     model_ParseDuration := model_ParseDuration E;
     user_Current := user_Current E;
     configFlags := configFlags E;
     path_Join := path_Join E;
     alertmanagerURL := alertmanagerURL E;
     httpConfigFile := httpConfigFile E;
     LoadHTTPConfigFile := LoadHTTPConfigFile E;
     NewClientFromConfig := NewClientFromConfig E;
     os_Open := os_Open E;
     bufio_ScanLines := bufio_ScanLines E;
     PostSilences := PostSilences E |}.

(** The environment with other defaults bound from the configuration
    files. *)
Definition setConfig (E : Env) (cf : configDefaults) : Env :=
  {| compat_Matcher := compat_Matcher E;
     strconv_Quote := strconv_Quote E;
     time_Now := time_Now E;
     time_Parse := time_Parse E;
     model_ParseDuration := model_ParseDuration E;
     user_Current := user_Current E;
     configFlags := cf;
     path_Join := path_Join E;
     alertmanagerURL := alertmanagerURL E;
     httpConfigFile := httpConfigFile E;
     LoadHTTPConfigFile := LoadHTTPConfigFile E;
     NewClientFromConfig := NewClientFromConfig E;
     os_Open := os_Open E;
     bufio_ScanLines := bufio_ScanLines E;
     PostSilences := PostSilences E |}.

(** Configuration files that set the tenant and nothing else. *)
Definition tenantConfig (t : string) : configDefaults :=
  {| config_tenant := Some t; config_tenant_http_header := None;
     config_tenant_file := None; config_author := None;
     config_require_comment := None; config_duration := None;
     config_max_duration := None; config_start := None; config_end := None;
     config_comment := None |}.


(** No assignment into the headers of this configuration can panic: the
    pointer is nil, or the map of the structure is not. *)
Definition headersAssignable (httpConfig : HTTPClientConfig) : Prop :=
  ∀ headers, HTTPHeaders httpConfig = Some headers → HeadersMap headers ≠ None.

(** All four pointers of a payload matcher are set. *)
Definition allFieldsSet (m : models.Matcher) : Prop :=
  is_Some (models.Name m) ∧ is_Some (models.Value m)
  ∧ is_Some (models.IsEqual m) ∧ is_Some (models.IsRegex m).

(** ** Properties of TypeMatcher *)

(** C5. A parsed matcher is turned into the pair (isEqual, isRegex) by its
    operator alone: isEqual is set exactly for [=] and [=~], isRegex exactly
    for [=~] and [!~]; both fields, the name and the value are always
    present; two matchers with the same pair have the same operator, and
    each of the four pairs is the image of one operator. *)
Theorem TypeMatcher_operator_pair :
  (∀ m : labels.Matcher,
     let op := labels.MatchType_String (labels.Type_ m) in
     models.IsEqual (TypeMatcher m) = Some (bool_decide (op = "=" ∨ op = "=~"))
     ∧ models.IsRegex (TypeMatcher m) = Some (bool_decide (op = "=~" ∨ op = "!~"))
     ∧ models.Name (TypeMatcher m) = Some (labels.Name m)
     ∧ models.Value (TypeMatcher m) = Some (labels.Value m))
  ∧ (∀ m1 m2 : labels.Matcher,
       models.IsEqual (TypeMatcher m1) = models.IsEqual (TypeMatcher m2) →
       models.IsRegex (TypeMatcher m1) = models.IsRegex (TypeMatcher m2) →
       labels.MatchType_String (labels.Type_ m1)
       = labels.MatchType_String (labels.Type_ m2))
  ∧ (∀ isEqual isRegex : bool, ∃ ty : labels.MatchType,
       ∀ name value : string,
         let m := TypeMatcher {| labels.Type_ := ty; labels.Name := name;
                                 labels.Value := value |} in
         models.IsEqual m = Some isEqual ∧ models.IsRegex m = Some isRegex).
Proof.
  split; [|split].
  - intros [[] name value]; cbn; repeat split; reflexivity.
  - intros [[] ? ?] [[] ? ?]; cbn; intros He Hr; try reflexivity;
      discriminate.
  - intros [] [].
    + exists labels.MatchRegexp. intros; split; reflexivity.
    + exists labels.MatchEqual. intros; split; reflexivity.
    + exists labels.MatchNotRegexp. intros; split; reflexivity.
    + exists labels.MatchNotEqual. intros; split; reflexivity.
Qed.

(** The matcher [node!~bar.*] is neither an equality nor a literal one,
    and two matchers that are both turned into (true, false) both carry the
    operator [=]. *)
Lemma TypeMatcher_operator_pair_witness :
  (models.IsEqual
     (TypeMatcher {| labels.Type_ := labels.MatchNotRegexp;
                     labels.Name := "node"; labels.Value := "bar.*" |})
   = Some false
   ∧ models.IsRegex
       (TypeMatcher {| labels.Type_ := labels.MatchNotRegexp;
                       labels.Name := "node"; labels.Value := "bar.*" |})
     = Some true)
  ∧ labels.MatchType_String labels.MatchEqual
    = labels.MatchType_String labels.MatchEqual.
Proof.
  destruct TypeMatcher_operator_pair as (Hpair & Hinj & _). split.
  - destruct (Hpair {| labels.Type_ := labels.MatchNotRegexp;
                       labels.Name := "node"; labels.Value := "bar.*" |})
      as (He & Hr & _).
    split; [exact He | exact Hr].
  - exact (Hinj {| labels.Type_ := labels.MatchEqual; labels.Name := "alertname";
                   labels.Value := "foo" |}
                {| labels.Type_ := labels.MatchEqual; labels.Name := "node";
                   labels.Value := "bar" |} eq_refl eq_refl).
Defined.

(** ** How add ends *)

Lemma add_prepare_err (E : Env) (c : silenceAddCmd) (e : error) :
  prepare E c = inr e → add E c = failed e.
Proof. unfold add. intros ->. reflexivity. Qed.

Lemma add_prepare_ok (E : Env) (c : silenceAddCmd) (ps : PostableSilence) :
  prepare E c = inl ps → add E c = dispatch E c ps.
Proof. unfold add. intros ->. reflexivity. Qed.

Lemma bind_inl {A B : Type} (r : result A) (k : A → result B) (b : B) :
  bind r k = inl b → ∃ a, r = inl a ∧ k a = inl b.
Proof. destruct r as [a|e]; cbn; [eauto | discriminate]. Qed.

Lemma bind_inr {A B : Type} (r : result A) (k : A → result B) (e : error) :
  bind r k = inr e → r = inr e ∨ ∃ a, r = inl a ∧ k a = inr e.
Proof. destruct r as [a|e']; cbn; [eauto | intros [= ->]; auto]. Qed.

(** What a successful preparation went through. *)
Lemma prepare_inl (E : Env) (c : silenceAddCmd) (ps : PostableSilence) :
  prepare E c = inl ps →
  ∃ parsed startsAt endsAt,
    parseMatchers E (matchers c) = inl parsed
    ∧ resolveStart E c = inl startsAt
    ∧ resolveEnd E c startsAt = inl endsAt
    ∧ checkWindow startsAt endsAt = inl ()
    ∧ checkComment c = inl ()
    ∧ ps = buildSilence c parsed startsAt endsAt.
Proof.
  unfold prepare. intros H.
  apply bind_inl in H as (parsed & Hp & H).
  apply bind_inl in H as (s & Hs & H).
  apply bind_inl in H as (e & He & H).
  apply bind_inl in H as ([] & Hw & H).
  apply bind_inl in H as ([] & Hc & H).
  exists parsed, s, e. naive_solver.
Qed.

(** The steps of [prepare], taken one at a time. *)
Lemma prepare_steps (E : Env) (c : silenceAddCmd) (parsed : list labels.Matcher)
    (startsAt : Time) :
  parseMatchers E (matchers c) = inl parsed →
  resolveStart E c = inl startsAt →
  prepare E c =
    (let? endsAt := resolveEnd E c startsAt in
     let? _ := checkWindow startsAt endsAt in
     let? _ := checkComment c in
     inl (buildSilence c parsed startsAt endsAt)).
Proof. unfold prepare. intros -> ->. reflexivity. Qed.

(** ** Matcher parsing *)

Lemma parseEach_length (E : Env) (ms : list string) (parsed : list labels.Matcher) :
  parseEach E ms = inl parsed → length parsed = length ms.
Proof.
  revert parsed. induction ms as [|s rest IH]; intros parsed; cbn.
  - intros [= <-]. reflexivity.
  - destruct (compat_Matcher E s) as [m|err]; [|discriminate].
    intros H. apply bind_inl in H as (tl & Htl & [= <-]).
    cbn. f_equal. auto.
Qed.

(** On a list that is not empty the final length test never fires. *)
Lemma parseMatchers_cons (E : Env) (m0 : string) (rest : list string) :
  parseMatchers E (m0 :: rest) = parseEach E (rewriteFirst E (m0 :: rest)).
Proof.
  unfold parseMatchers.
  destruct (parseEach E (rewriteFirst E (m0 :: rest))) as [parsed|e] eqn:Hp;
    [|reflexivity].
  cbn. apply parseEach_length in Hp.
  assert (length (rewriteFirst E (m0 :: rest)) = S (length rest)) as Hlen.
  { cbn. destruct (compat_Matcher E m0); reflexivity. }
  rewrite bool_decide_eq_false_2; [reflexivity | lia].
Qed.

Lemma parseMatchers_nil (E : Env) : parseMatchers E [] = inr ErrNoMatchers.
Proof. reflexivity. Qed.


(** ** What dispatch can and cannot do *)

Lemma tenantLoop_status (E : Env) (c : silenceAddCmd) (ps : PostableSilence)
    (tenants : list string) (httpConfig : HTTPClientConfig) (n : nat) :
  status (tenantLoop E c ps httpConfig n tenants) = Return None
  ∨ (∃ f, status (tenantLoop E c ps httpConfig n tenants) = Exit f)
  ∨ status (tenantLoop E c ps httpConfig n tenants) = Panic.
Proof.
  revert httpConfig n. induction tenants as [|t rest IH]; intros cfg n; cbn.
  - left. reflexivity.
  - destruct (setHTTPTenantHeader cfg t (tenantHTTPHeader c)) as [cfg'|]; cbn;
      [|auto].
    destruct (NewAlertmanagerClient E _) as [a|f]; cbn; [apply IH | eauto].
Qed.

Lemma tenantLoop_posts (E : Env) (c : silenceAddCmd) (ps : PostableSilence)
    (tenants : list string) (httpConfig : HTTPClientConfig) (n : nat) :
  Forall (λ p, p.2 = ps) (posts (trace (tenantLoop E c ps httpConfig n tenants))).
Proof.
  revert httpConfig n. induction tenants as [|t rest IH]; intros cfg n; cbn.
  - constructor.
  - destruct (setHTTPTenantHeader cfg t (tenantHTTPHeader c)) as [cfg'|]; cbn;
      [|constructor].
    destruct (NewAlertmanagerClient E _) as [a|f]; cbn.
    + constructor; [reflexivity | apply IH].
    + constructor.
Qed.

(** An error returned by the dispatch is a failed submission or an
    unreadable tenant file. *)
Lemma dispatch_error_kind (E : Env) (c : silenceAddCmd) (ps : PostableSilence)
    (e : error) :
  status (dispatch E c ps) = Return (Some e) →
  kind e = SubmissionError ∨ kind e = TenantFileReadError.
Proof.
  unfold dispatch, readTenantFromFile.
  repeat (case_match; cbn); intros Hst; simplify_eq; auto.
  match goal with
  | Hl : status (tenantLoop ?E ?c ?ps ?cfg ?n ?l) = _ |- _ =>
      destruct (tenantLoop_status E c ps l cfg n) as [Hs|[[f Hs]|Hs]];
        rewrite Hs in Hl; discriminate
  end.
Qed.

(** Every submission of a run carries the payload the dispatch was given. *)
Lemma dispatch_posts (E : Env) (c : silenceAddCmd) (ps : PostableSilence) :
  Forall (λ p, p.2 = ps) (posts (trace (dispatch E c ps))).
Proof.
  unfold dispatch.
  repeat (case_match; cbn); repeat constructor.
  apply tenantLoop_posts.
Qed.

Lemma add_posts (E : Env) (c : silenceAddCmd) (p : AlertmanagerAPI * PostableSilence) :
  p ∈ posts (trace (add E c)) → prepare E c = inl p.2.
Proof.
  unfold add. destruct (prepare E c) as [ps|e]; cbn.
  - intros Hin. pose proof (dispatch_posts E c ps) as HF.
    rewrite Forall_forall in HF. f_equal. symmetry. auto.
  - intros Hin. apply elem_of_nil in Hin. destruct Hin.
Qed.

(** An error [add] returns comes from the preparation, unless it is a
    failed submission or an unreadable tenant file. *)
Lemma add_error (E : Env) (c : silenceAddCmd) (e : error) :
  status (add E c) = Return (Some e) →
  prepare E c = inr e
  ∨ kind e = SubmissionError ∨ kind e = TenantFileReadError.
Proof.
  unfold add. destruct (prepare E c) as [ps|e'] eqn:Hp; cbn.
  - intros H. right. eapply dispatch_error_kind, H.
  - intros [= ->]. left. reflexivity.
Qed.


(** ** Where an error of the preparation comes from *)

Lemma parseEach_error (E : Env) (ms : list string) (e : error) :
  parseEach E ms = inr e → ∃ msg, e = ErrMatcher msg.
Proof.
  induction ms as [|s rest IH]; cbn; [discriminate|].
  destruct (compat_Matcher E s) as [m|err]; [|intros [= <-]; eauto].
  destruct (parseEach E rest) as [tl|e']; cbn; [discriminate|].
  intros [= ->]. auto.
Qed.

Lemma parseMatchers_error (E : Env) (ms : list string) (e : error) :
  parseMatchers E ms = inr e → (∃ msg, e = ErrMatcher msg) ∨ e = ErrNoMatchers.
Proof.
  unfold parseMatchers. intros H.
  apply bind_inr in H as [H|(parsed & _ & H)].
  - left. eapply parseEach_error, H.
  - case_bool_decide; simplify_eq. auto.
Qed.

Lemma resolveStart_error (E : Env) (c : silenceAddCmd) (e : error) :
  resolveStart E c = inr e → ∃ msg, e = ErrStart msg.
Proof.
  unfold resolveStart. repeat case_match; intros; simplify_eq; eauto.
Qed.

Lemma checkWindow_error (startsAt endsAt : Time) (e : error) :
  checkWindow startsAt endsAt = inr e →
  e = ErrStartAfterEnd ∧ (endsAt < startsAt)%Z.
Proof.
  unfold checkWindow, After. destruct (Z.ltb_spec endsAt startsAt);
    intros; simplify_eq; auto.
Qed.

Lemma checkWindow_inl (startsAt endsAt : Time) :
  checkWindow startsAt endsAt = inl () ↔ (startsAt ≤ endsAt)%Z.
Proof.
  unfold checkWindow, After. destruct (Z.ltb_spec endsAt startsAt);
    split; intros; simplify_eq; auto; lia.
Qed.

Lemma checkComment_error (c : silenceAddCmd) (e : error) :
  checkComment c = inr e → e = ErrCommentRequired.
Proof. unfold checkComment. case_match; intros; simplify_eq; auto. Qed.

Lemma prepare_inr (E : Env) (c : silenceAddCmd) (e : error) :
  prepare E c = inr e →
  parseMatchers E (matchers c) = inr e
  ∨ resolveStart E c = inr e
  ∨ (∃ startsAt, resolveStart E c = inl startsAt
                 ∧ resolveEnd E c startsAt = inr e)
  ∨ (∃ startsAt endsAt, resolveStart E c = inl startsAt
        ∧ resolveEnd E c startsAt = inl endsAt
        ∧ (endsAt < startsAt)%Z ∧ e = ErrStartAfterEnd)
  ∨ e = ErrCommentRequired.
Proof.
  unfold prepare. intros H.
  apply bind_inr in H as [H|(parsed & _ & H)]; [auto|].
  apply bind_inr in H as [H|(s & Hs & H)]; [auto|].
  apply bind_inr in H as [H|(t & Ht & H)]; [eauto 10|].
  apply bind_inr in H as [H|([] & _ & H)].
  { apply checkWindow_error in H as [-> ?]. eauto 10. }
  apply bind_inr in H as [H|([] & _ & H)]; [|discriminate].
  apply checkComment_error in H. auto 10.
Qed.


(** ** The end of the window *)

(** The branch with an explicit end, lines 139 to 143. *)
Lemma resolveEnd_explicit (E : Env) (c : silenceAddCmd) (startsAt : Time) :
  end_ c ≠ "" →
  resolveEnd E c startsAt =
    match time_Parse E (end_ c) with
    | inr err => inr (ErrEnd err)
    | inl t => inl t
    end.
Proof. unfold resolveEnd. intros H. rewrite bool_decide_eq_true_2; done. Qed.

(** The branch without one, lines 145 to 157. *)
Lemma resolveEnd_duration (E : Env) (c : silenceAddCmd) (startsAt : Time) :
  end_ c = "" →
  resolveEnd E c startsAt =
    (let? de := durationEnd E c startsAt in
     let? _ := checkMaxDuration E c de.1 in
     inl de.2).
Proof.
  unfold resolveEnd. intros H. rewrite bool_decide_eq_false_2; [done|].
  intros Hne. apply Hne, H.
Qed.

Lemma resolveEnd_error (E : Env) (c : silenceAddCmd) (startsAt : Time) (e : error) :
  resolveEnd E c startsAt = inr e →
  (end_ c ≠ "" ∧ ∃ msg, e = ErrEnd msg)
  ∨ (end_ c = "" ∧ ((∃ msg, e = ErrDuration msg) ∨ e = ErrDurationZero
                    ∨ e = ErrDurationExceedsMax (duration c) (maxDuration c))).
Proof.
  destruct (decide (end_ c = "")) as [Hend|Hend].
  - rewrite resolveEnd_duration by done.
    unfold durationEnd, checkMaxDuration.
    destruct (model_ParseDuration E (duration c)) as [d [err|]]; cbn.
    + intros [= <-]. eauto 10.
    + repeat (case_bool_decide; cbn); intros; simplify_eq; auto 10.
  - rewrite resolveEnd_explicit by done.
    destruct (time_Parse E (end_ c)); intros; simplify_eq. eauto.
Qed.

(** ** The first argument *)









(** ** The duration *)



(** ** The limit on the duration *)

(** C1, as the code has it. Without an explicit end and with a duration
    that parses to [d], not zero: the window resolution fails with the
    error "duration couldn't be greater than" exactly when [d] exceeds the
    limit, and yields start plus [d] otherwise. When [maxDuration] parses,
    the limit is its value. When it does not parse, no error is reported
    for it, and the limit is the value returned with the error: with the
    zero value, every duration greater than zero is refused. [add] returns
    the error as soon as the matchers and the start are resolved, and
    returns an error of that kind in no other case. *)
Theorem max_duration_limit (E : Env) (c : silenceAddCmd) (startsAt d : Z)
    (Hend : end_ c = "")
    (Hd : model_ParseDuration E (duration c) = (d, None))
    (Hnz : d ≠ 0%Z) :
  let tooLong := ErrDurationExceedsMax (duration c) (maxDuration c) in
  resolveEnd E c startsAt
  = (if bool_decide (d > limit E c)%Z then inr tooLong
     else inl (startsAt + d)%Z)
  ∧ (∀ md, model_ParseDuration E (maxDuration c) = (md, None) →
       resolveEnd E c startsAt = inr tooLong ↔ (d > md)%Z)
  ∧ (∀ err, model_ParseDuration E (maxDuration c) = (0%Z, Some err) →
       (0 < d)%Z →
       resolveEnd E c startsAt = inr tooLong
       ∧ (∀ parsed, parseMatchers E (matchers c) = inl parsed →
            resolveStart E c = inl startsAt →
            add E c = failed tooLong))
  ∧ (∀ parsed, parseMatchers E (matchers c) = inl parsed →
       resolveStart E c = inl startsAt →
       (d > limit E c)%Z → add E c = failed tooLong)
  ∧ (∀ e, status (add E c) = Return (Some e) →
       kind e = DurationExceedsMaxError →
       e = tooLong ∧ (d > limit E c)%Z).
Proof.
  intros tooLong.
  assert (∀ s, resolveEnd E c s
          = (if bool_decide (d > limit E c)%Z then inr tooLong
             else inl (s + d)%Z)) as Hre.
  { intros s. rewrite resolveEnd_duration by done.
    unfold durationEnd, checkMaxDuration, limit.
    rewrite Hd, bool_decide_eq_false_2 by done. cbn.
    case_bool_decide; reflexivity. }
  assert (∀ parsed, parseMatchers E (matchers c) = inl parsed →
       resolveStart E c = inl startsAt →
       (d > limit E c)%Z → add E c = failed tooLong) as Hadd.
  { intros parsed Hp Hs Hgt. apply add_prepare_err.
    rewrite (prepare_steps E c parsed startsAt Hp Hs), Hre.
    rewrite bool_decide_eq_true_2 by done. reflexivity. }
  split; [apply Hre|]. split; [|split; [|split]].
  - intros md Hmd. rewrite Hre. clear Hre Hadd. unfold limit.
    rewrite Hmd. cbn [fst].
    case_bool_decide; split; intros; simplify_eq; done.
  - intros err Hmd Hpos.
    assert (d > limit E c)%Z as Hgt.
    { unfold limit. rewrite Hmd. cbn [fst]. lia. }
    split; [|eauto]. rewrite Hre, bool_decide_eq_true_2 by done.
    reflexivity.
  - exact Hadd.
  - intros e He Hk. apply add_error in He as [He|[He|He]];
      [|rewrite He in Hk; discriminate..].
    apply prepare_inr in He
      as [He|[He|[(s & _ & He)|[(s & t & _ & _ & _ & ->)| ->]]]];
      try discriminate Hk.
    + apply parseMatchers_error in He as [[msg ->]| ->]; discriminate Hk.
    + apply resolveStart_error in He as [msg ->]. discriminate Hk.
    + rewrite Hre in He. clear Hre Hadd.
      case_bool_decide; simplify_eq. done.
Qed.

(** Durations of one hour and of thirteen hours against the limits [12h]
    and [never], the latter not a duration. *)
Lemma max_duration_limit_witness :
  let E := Sample.env in
  resolveEnd E (configureSilenceAddCmd E (withDuration "1h" "12h")) 0%Z
  = inl (3600 * Sample.second)%Z
  ∧ add E (configureSilenceAddCmd E (withDuration "13h" "12h"))
    = failed (ErrDurationExceedsMax "13h" "12h")
  ∧ add E (configureSilenceAddCmd E (withDuration "1h" "never"))
    = failed (ErrDurationExceedsMax "1h" "never").
Proof.
  intros E.
  assert (∀ n, (0 < n)%Z → (n * Sample.second)%Z ≠ 0%Z) as Hnz.
  { intros n Hn. unfold Sample.second. lia. }
  split; [|split].
  - exact (proj1 (max_duration_limit E
      (configureSilenceAddCmd E (withDuration "1h" "12h")) 0%Z
      (3600 * Sample.second)%Z eq_refl eq_refl (Hnz 3600%Z eq_refl))).
  - destruct (max_duration_limit E
      (configureSilenceAddCmd E (withDuration "13h" "12h")) (time_Now E)
      (46800 * Sample.second)%Z eq_refl eq_refl (Hnz 46800%Z eq_refl))
      as (_ & _ & _ & Hadd & _).
    exact (Hadd _ eq_refl eq_refl eq_refl).
  - destruct (max_duration_limit E
      (configureSilenceAddCmd E (withDuration "1h" "never")) (time_Now E)
      (3600 * Sample.second)%Z eq_refl eq_refl (Hnz 3600%Z eq_refl))
      as (_ & _ & Hzero & _).
    destruct (Hzero "not a valid duration string: never" eq_refl eq_refl)
      as [_ Hadd].
    exact (Hadd _ eq_refl eq_refl).
Defined.

(** C1 as stated fails: [never] is not a duration and [1h] is one, not
    zero, yet the check on the duration does not pass, and [add] ends with
    the error of a duration above the limit. *)
Lemma unparsable_max_duration_is_not_unlimited :
  let E := Sample.env in
  let c := configureSilenceAddCmd E (withDuration "1h" "never") in
  (∃ err, (model_ParseDuration E (maxDuration c)).2 = Some err)
  ∧ (∃ d, model_ParseDuration E (duration c) = (d, None) ∧ d ≠ 0%Z
          ∧ checkMaxDuration E c d ≠ inl ())
  ∧ ∃ e, status (add E c) = Return (Some e) ∧ kind e = DurationExceedsMaxError.
Proof.
  cbv zeta. split; [|split].
  - eexists. vm_compute. reflexivity.
  - exists (3600 * Sample.second)%Z. split; [vm_compute; reflexivity|].
    split; [vm_compute; discriminate|]. vm_compute. discriminate.
  - eexists. split; vm_compute; reflexivity.
Qed.


(** ** An explicit end *)

Lemma tenantLoop_header_only (E : Env) (c c' : silenceAddCmd)
    (ps : PostableSilence) (tenants : list string)
    (httpConfig : HTTPClientConfig) (n : nat) :
  tenantHTTPHeader c = tenantHTTPHeader c' →
  tenantLoop E c ps httpConfig n tenants = tenantLoop E c' ps httpConfig n tenants.
Proof.
  intros Hh. revert httpConfig n.
  induction tenants as [|t rest IH]; intros cfg n; cbn; [reflexivity|].
  rewrite Hh. destruct (setHTTPTenantHeader cfg t _); [|reflexivity].
  destruct (NewAlertmanagerClient E _); [|reflexivity].
  rewrite IH. reflexivity.
Qed.

(** The dispatch reads the three tenant fields of the command and nothing
    else of it. *)
Lemma dispatch_tenant_fields (E : Env) (c c' : silenceAddCmd) (ps : PostableSilence) :
  tenant c = tenant c' → tenantFile c = tenantFile c' →
  tenantHTTPHeader c = tenantHTTPHeader c' →
  dispatch E c ps = dispatch E c' ps.
Proof.
  intros Ht Hf Hh. unfold dispatch. rewrite Ht, Hf, Hh.
  repeat case_match; try reflexivity.
  apply tenantLoop_header_only, Hh.
Qed.

Lemma prepare_setDurations (E : Env) (c : silenceAddCmd) (d md : string) :
  end_ c ≠ "" → prepare E (setDurations c d md) = prepare E c.
Proof.
  intros Hend. unfold prepare. cbn [matchers setDurations].
  destruct (parseMatchers E (matchers c)) as [parsed|e]; [cbn|reflexivity].
  change (resolveStart E (setDurations c d md)) with (resolveStart E c).
  destruct (resolveStart E c) as [s|e]; [cbn|reflexivity].
  rewrite !resolveEnd_explicit by done. reflexivity.
Qed.

(** C6. With an explicit end, the end of the window is the parsed end (or
    the command fails with the error of that parse); the duration and the
    limit are not looked at: [add] never returns an invalid-duration error
    or a duration-above-limit error, and its whole run is the same for any
    two strings given as duration and limit. *)
Theorem explicit_end_skips_duration (E : Env) (c : silenceAddCmd)
    (Hend : end_ c ≠ "") :
  (∀ startsAt, resolveEnd E c startsAt =
     match time_Parse E (end_ c) with
     | inr err => inr (ErrEnd err)
     | inl t => inl t
     end)
  ∧ (∀ p, p ∈ posts (trace (add E c)) →
       ∃ t, time_Parse E (end_ c) = inl t ∧ EndsAt p.2 = Some t)
  ∧ (∀ e, status (add E c) = Return (Some e) →
       kind e ≠ InvalidDurationError ∧ kind e ≠ DurationExceedsMaxError)
  ∧ (∀ d md, add E (setDurations c d md) = add E c).
Proof.
  split; [|split; [|split]].
  - intros s. apply resolveEnd_explicit, Hend.
  - intros p Hin. apply add_posts, prepare_inl in Hin
      as (parsed & s & e & _ & _ & He & _ & _ & ->).
    rewrite resolveEnd_explicit in He by done.
    destruct (time_Parse E (end_ c)) as [t|err]; simplify_eq. eauto.
  - intros e He. apply add_error in He as [He|[He|He]];
      [|rewrite He; split; discriminate..].
    apply prepare_inr in He
      as [He|[He|[(s & _ & He)|[(s & t & _ & _ & _ & ->)| ->]]]];
      try (split; discriminate).
    + apply parseMatchers_error in He as [[msg ->]| ->]; split; discriminate.
    + apply resolveStart_error in He as [msg ->]. split; discriminate.
    + apply resolveEnd_error in He as [[_ [msg ->]]|[Hc _]]; [|done].
      split; discriminate.
  - intros d md. unfold add. rewrite prepare_setDurations by done.
    destruct (prepare E c) as [ps|e]; [|reflexivity].
    apply dispatch_tenant_fields; reflexivity.
Qed.

(** An end one hour after the start, with a duration that is not one and a
    limit of zero: the end is the parsed end and the run is the one of the
    default duration and limit. *)
Lemma explicit_end_skips_duration_witness :
  let E := Sample.env in
  let c := configureSilenceAddCmd E
             (withWindow "2024-01-01T00:00:00Z" "2024-01-01T01:00:00Z" "bogus" "0") in
  resolveEnd E c 0%Z = inl (1704070800 * Sample.second)%Z
  ∧ add E (setDurations c "1h" "12h") = add E c.
Proof.
  intros E c.
  assert (end_ c ≠ "") as Hend by (vm_compute; discriminate).
  split.
  - exact (proj1 (explicit_end_skips_duration E c Hend) 0%Z).
  - exact (proj2 (proj2 (proj2 (explicit_end_skips_duration E c Hend)))
             "1h" "12h").
Defined.

(** ** The order of the window *)

(** C8. Every window [add] submits is the resolved one, unchanged, and
    starts no later than it ends. A resolved window that starts strictly
    after its end makes [add] fail with the error "silence cannot start
    after it ends", nothing being sent or printed; with an explicit end
    earlier than an explicit start this is so for every duration and every
    limit. *)
Theorem window_order (E : Env) (c : silenceAddCmd) :
  (∀ p, p ∈ posts (trace (add E c)) →
     ∃ startsAt endsAt,
       resolveStart E c = inl startsAt
       ∧ resolveEnd E c startsAt = inl endsAt
       ∧ StartsAt p.2 = Some startsAt
       ∧ EndsAt p.2 = Some endsAt
       ∧ (startsAt ≤ endsAt)%Z)
  ∧ (∀ parsed startsAt endsAt,
       parseMatchers E (matchers c) = inl parsed →
       resolveStart E c = inl startsAt →
       resolveEnd E c startsAt = inl endsAt →
       (endsAt < startsAt)%Z →
       add E c = failed ErrStartAfterEnd
       ∧ kind ErrStartAfterEnd = InvalidWindowError)
  ∧ (∀ parsed startsAt endsAt,
       parseMatchers E (matchers c) = inl parsed →
       start c ≠ "" → end_ c ≠ "" →
       time_Parse E (start c) = inl startsAt →
       time_Parse E (end_ c) = inl endsAt →
       (endsAt < startsAt)%Z →
       ∀ d md, add E (setDurations c d md) = failed ErrStartAfterEnd).
Proof.
  assert (∀ parsed startsAt endsAt,
       parseMatchers E (matchers c) = inl parsed →
       resolveStart E c = inl startsAt →
       resolveEnd E c startsAt = inl endsAt →
       (endsAt < startsAt)%Z →
       prepare E c = inr ErrStartAfterEnd) as Hrej.
  { intros parsed s e Hp Hs He Hlt.
    rewrite (prepare_steps E c parsed s Hp Hs), He. cbn.
    unfold checkWindow, After.
    destruct (Z.ltb_spec e s); [reflexivity | lia]. }
  split; [|split].
  - intros p Hin. apply add_posts, prepare_inl in Hin
      as (parsed & s & e & _ & Hs & He & Hw & _ & ->).
    apply checkWindow_inl in Hw. exists s, e. auto.
  - intros parsed s e Hp Hs He Hlt. split; [|reflexivity].
    eapply add_prepare_err, Hrej; eassumption.
  - intros parsed s e Hp Hstart Hend Hs He Hlt d md.
    apply add_prepare_err. rewrite prepare_setDurations by done.
    apply (Hrej parsed s e); [exact Hp| | |exact Hlt].
    + unfold resolveStart. rewrite bool_decide_eq_true_2, Hs by done.
      reflexivity.
    + rewrite resolveEnd_explicit, He by done. reflexivity.
Qed.

(** An explicit end one hour before the explicit start, with the default
    duration and with one of ten minutes. *)
Lemma window_order_witness :
  let E := Sample.env in
  let c := configureSilenceAddCmd E
             (withWindow "2024-01-01T01:00:00Z" "2024-01-01T00:00:00Z" "1h" "12h") in
  add E c = failed ErrStartAfterEnd
  ∧ add E (setDurations c "10m" "12h") = failed ErrStartAfterEnd.
Proof.
  intros E c.
  destruct (window_order E c) as (_ & Hrej & Hany). split.
  - refine (proj1 (Hrej _ (1704070800 * Sample.second)%Z
                     (1704067200 * Sample.second)%Z eq_refl eq_refl eq_refl _)).
    vm_compute. reflexivity.
  - refine (Hany _ (1704070800 * Sample.second)%Z
              (1704067200 * Sample.second)%Z eq_refl _ _ eq_refl eq_refl _
              "10m" "12h");
      vm_compute; (reflexivity || discriminate).
Defined.


(** ** The tenant header *)

Lemma setHTTPTenantHeader_is_Some (httpConfig : HTTPClientConfig) (t h : string) :
  is_Some (setHTTPTenantHeader httpConfig t h) ↔ headersAssignable httpConfig.
Proof.
  unfold setHTTPTenantHeader, headersAssignable.
  destruct (HTTPHeaders httpConfig) as [[[m|]]|]; cbn; split.
  - intros _ headers [= <-]. discriminate.
  - eauto.
  - intros [x Hx]. discriminate.
  - intros H. destruct (H _ eq_refl). reflexivity.
  - intros _ headers [=].
  - eauto.
Qed.

Lemma setHTTPTenantHeader_again (httpConfig httpConfig1 : HTTPClientConfig)
    (t1 t2 h : string) :
  setHTTPTenantHeader httpConfig t1 h = Some httpConfig1 →
  setHTTPTenantHeader httpConfig1 t2 h = setHTTPTenantHeader httpConfig t2 h.
Proof.
  unfold setHTTPTenantHeader.
  destruct (HTTPHeaders httpConfig) as [[[m|]]|]; cbn; intros [= <-]; cbn;
    do 5 f_equal.
  - apply insert_insert_eq.
  - apply insert_singleton_eq.
Qed.

Lemma setHTTPTenantHeader_lookup (httpConfig httpConfig' : HTTPClientConfig)
    (t h : string) :
  setHTTPTenantHeader httpConfig t h = Some httpConfig' →
  configHeader h httpConfig' = Some {| Values := [t] |}.
Proof.
  unfold setHTTPTenantHeader, configHeader.
  destruct (HTTPHeaders httpConfig) as [[[m|]]|]; cbn; intros [= <-]; cbn.
  - apply lookup_insert_eq.
  - apply lookup_singleton_eq.
Qed.

(** Headers other than the tenant header are left as they were. *)
Lemma setHTTPTenantHeader_other (httpConfig httpConfig' : HTTPClientConfig)
    (t h h' : string) :
  setHTTPTenantHeader httpConfig t h = Some httpConfig' →
  h ≠ h' →
  configHeader h' httpConfig' = configHeader h' httpConfig.
Proof.
  unfold setHTTPTenantHeader, configHeader.
  destruct (HTTPHeaders httpConfig) as [[[m|]]|]; cbn; intros [= <-] Hne; cbn.
  - apply lookup_insert_ne, Hne.
  - apply lookup_singleton_ne, Hne.
Qed.

Lemma setHTTPTenantHeader_settings (httpConfig httpConfig' : HTTPClientConfig)
    (t h : string) :
  setHTTPTenantHeader httpConfig t h = Some httpConfig' →
  otherSettings httpConfig' = otherSettings httpConfig.
Proof.
  unfold setHTTPTenantHeader.
  destruct (HTTPHeaders httpConfig) as [[[m|]]|]; cbn; intros [= <-];
    reflexivity.
Qed.

(** Once the header is set, it can be set again. *)
Lemma setHTTPTenantHeader_assignable (httpConfig httpConfig' : HTTPClientConfig)
    (t h : string) :
  setHTTPTenantHeader httpConfig t h = Some httpConfig' →
  headersAssignable httpConfig'.
Proof.
  unfold setHTTPTenantHeader, headersAssignable.
  destruct (HTTPHeaders httpConfig) as [[[m|]]|]; cbn; intros [= <-] headers;
    cbn; intros [= <-]; discriminate.
Qed.

Lemma NewAlertmanagerClient_httpclient (E : Env) (httpConfig : HTTPClientConfig)
    (a : AlertmanagerAPI) :
  NewAlertmanagerClient E httpConfig = inl a → httpclient a = httpConfig.
Proof.
  unfold NewAlertmanagerClient.
  destruct (_ && _); [discriminate|].
  destruct (NewClientFromConfig E httpConfig); [discriminate|].
  intros [= <-]. reflexivity.
Qed.

(** ** The loop over the tenants of the file *)

Lemma tenantLoop_available (E : Env) (c : silenceAddCmd) (ps : PostableSilence)
    (tenants : list string) (httpConfig : HTTPClientConfig) (n : nat) :
  clientsAvailable E →
  headersAssignable httpConfig →
  status (tenantLoop E c ps httpConfig n tenants) = Return None.
Proof.
  intros Hav. revert httpConfig n.
  induction tenants as [|t rest IH]; intros cfg n Hcfg; cbn; [reflexivity|].
  apply (setHTTPTenantHeader_is_Some cfg t (tenantHTTPHeader c)) in Hcfg
    as [cfg' Hset].
  rewrite Hset. destruct (Hav cfg') as [a ->]. cbn.
  apply IH. eapply setHTTPTenantHeader_assignable, Hset.
Qed.

(** A loop that returns has gone through the whole list, whatever the
    submissions answered. *)
Lemma tenantLoop_returns (E : Env) (c : silenceAddCmd) (ps : PostableSilence)
    (tenants : list string) (httpConfig : HTTPClientConfig) (n : nat) :
  status (tenantLoop E c ps httpConfig n tenants) = Return None →
  trace (tenantLoop E c ps httpConfig n tenants)
  = mjoin (imap (λ i, attempt E c ps httpConfig (n + i)) tenants)
  ∧ attempted (tenantHTTPHeader c) (trace (tenantLoop E c ps httpConfig n tenants))
    = (λ t, Some {| Values := [t] |}) <$> tenants
  ∧ length (printed (trace (tenantLoop E c ps httpConfig n tenants)))
    = length tenants.
Proof.
  revert httpConfig n.
  induction tenants as [|t rest IH]; intros cfg n; cbn; [done|].
  unfold attempt at 1.
  destruct (setHTTPTenantHeader cfg t (tenantHTTPHeader c)) as [cfg'|] eqn:Hset;
    cbn; [|discriminate].
  destruct (NewAlertmanagerClient E cfg') as [a|f] eqn:Ha; cbn; [|discriminate].
  intros Hst. destruct (IH _ _ Hst) as (Htr & Hatt & Hlen).
  split; [|split].
  - rewrite Nat.add_0_r. do 2 f_equal. rewrite Htr. f_equal.
    apply imap_ext. intros i t' _. cbn. unfold attempt.
    rewrite (setHTTPTenantHeader_again _ _ _ t' _ Hset).
    replace (n + S i) with (S n + i) by lia. reflexivity.
  - unfold attempted in *. cbn. f_equal; [|exact Hatt].
    unfold headerOf. rewrite (NewAlertmanagerClient_httpclient _ _ _ Ha).
    eapply setHTTPTenantHeader_lookup, Hset.
  - f_equal. exact Hlen.
Qed.

(** C3. With a tenant file and no single tenant, once the file is read,
    and provided the HTTP client can be built and the headers of the loaded
    configuration can be assigned to, [add] goes through the whole list
    whatever each submission answers: it returns nil, its trace is, for
    each tenant in file order, one submission of the one payload with the
    tenant header set to that tenant, followed by one printed line
    reporting the identifier or the failure. More generally a run that
    returns has attempted every tenant. *)
Theorem file_mode_attempts_every_tenant (E : Env) (c : silenceAddCmd)
    (ps : PostableSilence) (httpConfig : HTTPClientConfig)
    (tenants : list string)
    (Hps : prepare E c = inl ps)
    (Ht : tenant c = "") (Hf : tenantFile c ≠ "")
    (Hcfg : NewAlertmanagerClientConfig E = inl httpConfig)
    (Hread : readTenantFromFile E (tenantFile c) = inl tenants) :
  (clientsAvailable E → headersAssignable httpConfig →
     status (add E c) = Return None)
  ∧ (status (add E c) = Return None →
       trace (add E c) = mjoin (imap (attempt E c ps httpConfig) tenants)
       ∧ attempted (tenantHTTPHeader c) (trace (add E c))
         = (λ t, Some {| Values := [t] |}) <$> tenants
       ∧ Forall (λ p, p.2 = ps) (posts (trace (add E c)))
       ∧ length (printed (trace (add E c))) = length tenants).
Proof.
  assert (add E c = tenantLoop E c ps httpConfig 0 tenants) as ->.
  { rewrite (add_prepare_ok E c ps Hps). unfold dispatch.
    rewrite Ht, Hcfg. cbn. rewrite (bool_decide_eq_true_2 _ Hf), Hread.
    reflexivity. }
  split.
  - apply tenantLoop_available.
  - intros Hst. destruct (tenantLoop_returns _ _ _ _ _ _ Hst) as (Htr & Hatt & Hlen).
    repeat split; try assumption. apply tenantLoop_posts.
Qed.

Lemma Sample_clientsAvailable : clientsAvailable Sample.env.
Proof. intros cfg. eexists. reflexivity. Qed.

(** The tenants [a] and [b] of [tenants.conf]: the submission for [a] is
    refused, the one for [b] is made all the same, and both are reported. *)
Lemma file_mode_attempts_every_tenant_witness :
  let E := Sample.env in
  let c := configureSilenceAddCmd E (withDuration "10m" "12h") in
  status (add E c) = Return None
  ∧ attempted "X-Scope-OrgID" (trace (add E c))
    = [Some {| Values := ["a"] |}; Some {| Values := ["b"] |}]
  ∧ printed (trace (add E c))
    = ["Unable to add silence for 'a' tenant: connection refused" +:+ newline;
       "Silence added for 'b' tenant: 1fb1199b-6aec-4575-b6d4-cc5631b77326"
         +:+ newline].
Proof.
  intros E c.
  destruct (prepare E c) as [ps|e] eqn:Hps; [|vm_compute in Hps; discriminate].
  destruct (file_mode_attempts_every_tenant E c ps
              {| HTTPHeaders := None; otherSettings := "" |} ["a"; "b"]
              Hps eq_refl ltac:(vm_compute; discriminate) eq_refl eq_refl)
    as [Hret Hall].
  specialize (Hret Sample_clientsAvailable
                ltac:(intros headers Hh; discriminate Hh)).
  destruct (Hall Hret) as (_ & Hatt & _ & _).
  split; [exact Hret|]. split; [exact Hatt|].
  vm_compute. reflexivity.
Defined.

(** ** The two tenant configurations at once *)

Lemma prepare_error_kind (E : Env) (c : silenceAddCmd) (e : error) :
  prepare E c = inr e → validationKind (kind e) = true.
Proof.
  intros He. apply prepare_inr in He
    as [He|[He|[(s & _ & He)|[(s & t & _ & _ & _ & ->)| ->]]]];
    try reflexivity.
  - apply parseMatchers_error in He as [[msg ->]| ->]; reflexivity.
  - apply resolveStart_error in He as [msg ->]. reflexivity.
  - apply resolveEnd_error in He
      as [[_ [msg ->]]|[_ [[msg ->]|[->| ->]]]]; reflexivity.
Qed.

Lemma dispatch_conflict (E : Env) (c : silenceAddCmd) (ps : PostableSilence) :
  tenant c ≠ "" → tenantFile c ≠ "" →
  dispatch E c ps = exited ConflictingTenantConfig.
Proof.
  intros Ht Hf. unfold dispatch.
  rewrite !bool_decide_eq_true_2 by done. reflexivity.
Qed.

(** C4, as the code has it. With a tenant and a tenant file both given,
    [add] never submits or prints anything; when the matchers, the window
    and the comment are accepted, the command is ended by [Fatalf] with the
    message that the two are mutually exclusive; otherwise it returns the
    error of the preparation. *)
Theorem conflicting_tenant_config (E : Env) (c : silenceAddCmd)
    (Ht : tenant c ≠ "") (Hf : tenantFile c ≠ "") :
  trace (add E c) = []
  ∧ (∀ ps, prepare E c = inl ps → add E c = exited ConflictingTenantConfig)
  ∧ (status (add E c) = Exit ConflictingTenantConfig
     ∨ ∃ e, prepare E c = inr e ∧ status (add E c) = Return (Some e)).
Proof.
  unfold add. destruct (prepare E c) as [ps|e].
  - rewrite dispatch_conflict by done. split; [reflexivity|].
    split; [reflexivity | left; reflexivity].
  - split; [reflexivity|]. split; [discriminate | right; eauto].
Qed.

Lemma conflicting_tenant_config_witness :
  let E := Sample.env in
  let c := configureSilenceAddCmd E (bothTenants ["alertname=foo"] "x") in
  trace (add E c) = [] ∧ add E c = exited ConflictingTenantConfig.
Proof.
  intros E c.
  destruct (conflicting_tenant_config E c
              ltac:(vm_compute; discriminate) ltac:(vm_compute; discriminate))
    as (Htr & Hexit & _).
  split; [exact Htr|].
  destruct (prepare E c) as [ps|e] eqn:Hps; [|vm_compute in Hps; discriminate].
  exact (Hexit ps eq_refl).
Defined.

(** C4 as stated fails: with both tenant configurations and no matcher,
    the command does not end on the conflict but returns the error "no
    matchers specified". *)
Lemma conflict_not_reported_without_matchers :
  let E := Sample.env in
  let c := configureSilenceAddCmd E (bothTenants [] "x") in
  tenant c ≠ "" ∧ tenantFile c ≠ ""
  ∧ status (add E c) = Return (Some ErrNoMatchers)
  ∧ status (add E c) ≠ Exit ConflictingTenantConfig.
Proof.
  cbv zeta. repeat split; vm_compute; (reflexivity || discriminate).
Qed.

(** C10. With both tenant configurations, an error of the preparation
    (matchers, start, end, duration, limit, order of the window, comment)
    is the error [add] returns, and the conflict is reported exactly when
    the whole preparation has succeeded. So an empty list of matchers, a
    duration that does not parse and a missing required comment are each
    reported ahead of the conflict. *)
Theorem validation_precedes_conflict (E : Env) (c : silenceAddCmd)
    (Ht : tenant c ≠ "") (Hf : tenantFile c ≠ "") :
  (∀ e, prepare E c = inr e →
     add E c = failed e ∧ validationKind (kind e) = true)
  ∧ (status (add E c) = Exit ConflictingTenantConfig
     ↔ ∃ ps, prepare E c = inl ps)
  ∧ (matchers c = [] → add E c = failed ErrNoMatchers)
  ∧ (∀ parsed startsAt d err,
       parseMatchers E (matchers c) = inl parsed →
       resolveStart E c = inl startsAt →
       end_ c = "" →
       model_ParseDuration E (duration c) = (d, Some err) →
       add E c = failed (ErrDuration err))
  ∧ (∀ parsed startsAt endsAt,
       parseMatchers E (matchers c) = inl parsed →
       resolveStart E c = inl startsAt →
       resolveEnd E c startsAt = inl endsAt →
       (startsAt ≤ endsAt)%Z →
       requireComment c = true → comment c = "" →
       add E c = failed ErrCommentRequired).
Proof.
  split; [|split; [|split; [|split]]].
  - intros e He. split; [apply add_prepare_err, He|].
    eapply prepare_error_kind, He.
  - unfold add. destruct (prepare E c) as [ps|e].
    + rewrite dispatch_conflict by done. split; eauto.
    + cbn. split; [discriminate | intros [ps [=]]].
  - intros Hnil. apply add_prepare_err. unfold prepare. rewrite Hnil.
    reflexivity.
  - intros parsed s d err Hp Hs Hend Hd. apply add_prepare_err.
    rewrite (prepare_steps E c parsed s Hp Hs), resolveEnd_duration by done.
    unfold durationEnd. rewrite Hd. reflexivity.
  - intros parsed s e Hp Hs He Hle Hrc Hc. apply add_prepare_err.
    rewrite (prepare_steps E c parsed s Hp Hs), He. cbn.
    apply checkWindow_inl in Hle. rewrite Hle. cbn.
    unfold checkComment. rewrite Hrc, Hc. reflexivity.
Qed.

(** Both tenant configurations with, in turn, no matcher, a first matcher
    and a second one that does not parse, and an empty comment. *)
Lemma validation_precedes_conflict_witness :
  let E := Sample.env in
  add E (configureSilenceAddCmd E (bothTenants [] "x")) = failed ErrNoMatchers
  ∧ add E (configureSilenceAddCmd E (bothTenants ["alertname=foo"; "bar"] "x"))
    = failed (ErrMatcher "bad matcher format: bar")
  ∧ add E (configureSilenceAddCmd E (bothTenants ["alertname=foo"] ""))
    = failed ErrCommentRequired.
Proof.
  intros E.
  assert (∀ args cmt,
    tenant (configureSilenceAddCmd E (bothTenants args cmt)) ≠ ""
    ∧ tenantFile (configureSilenceAddCmd E (bothTenants args cmt)) ≠ "") as Hboth.
  { intros args cmt. split; cbn; discriminate. }
  split; [|split].
  - destruct (Hboth [] "x") as [Ht Hf].
    destruct (validation_precedes_conflict E _ Ht Hf) as (_ & _ & Hnil & _).
    exact (Hnil eq_refl).
  - destruct (Hboth ["alertname=foo"; "bar"] "x") as [Ht Hf].
    destruct (validation_precedes_conflict E _ Ht Hf) as (Herr & _).
    exact (proj1 (Herr (ErrMatcher "bad matcher format: bar") eq_refl)).
  - destruct (Hboth ["alertname=foo"] "") as [Ht Hf].
    destruct (validation_precedes_conflict E _ Ht Hf) as (_ & _ & _ & _ & Hc).
    refine (Hc _ (time_Now E) (time_Now E + 3600 * Sample.second)%Z
              eq_refl eq_refl eq_refl _ eq_refl eq_refl).
    vm_compute. discriminate.
Defined.


(** ** The tenant flag *)

(** The branch of [add] without tenant, lines 216 to 223. *)
Lemma dispatch_no_tenant (E : Env) (c : silenceAddCmd) (ps : PostableSilence)
    (httpConfig : HTTPClientConfig) (a : AlertmanagerAPI) :
  tenant c = "" → tenantFile c = "" →
  NewAlertmanagerClientConfig E = inl httpConfig →
  NewAlertmanagerClient E httpConfig = inl a →
  dispatch E c ps =
    match PostSilences E 0 a ps with
    | inr err =>
        {| trace := [Post a ps]; status := Return (Some (ErrPost err)) |}
    | inl silenceID =>
        {| trace := [Post a ps; Printf ("Silence added: " +:+ silenceID)];
           status := Return None |}
    end.
Proof.
  intros Ht Hf Hcfg Ha. unfold dispatch. rewrite Ht, Hf, Hcfg. cbn.
  rewrite Ha. reflexivity.
Qed.

(** C9, as the code has it. The mode is chosen by which of the tenant and
    of the tenant file is the empty string. [--tenant] given as the empty
    string builds the same command, and so the same run, as no [--tenant],
    when the configuration files bind no tenant. A command whose tenant
    and tenant file are both empty runs without tenant: one submission, by a
    client built from the configuration as [NewAlertmanagerClientConfig]
    returned it, to which no tenant header was added (no header at all
    when there is no configuration file), and a failure of it is returned
    without naming a tenant. A command whose tenant is empty and whose
    tenant file is not runs the loop over the tenants of the file. *)
Theorem empty_tenant_is_no_tenant (E : Env) :
  (∀ f, config_tenant (configFlags E) = None
        ∨ config_tenant (configFlags E) = Some "" →
     configureSilenceAddCmd E (setTenantFlag f (Some ""))
     = configureSilenceAddCmd E (setTenantFlag f None)
     ∧ add E (configureSilenceAddCmd E (setTenantFlag f (Some "")))
       = add E (configureSilenceAddCmd E (setTenantFlag f None)))
  ∧ (∀ c ps httpConfig a,
       tenant c = "" → tenantFile c = "" →
       prepare E c = inl ps →
       NewAlertmanagerClientConfig E = inl httpConfig →
       NewAlertmanagerClient E httpConfig = inl a →
       add E c =
         match PostSilences E 0 a ps with
         | inr err =>
             {| trace := [Post a ps]; status := Return (Some (ErrPost err)) |}
         | inl silenceID =>
             {| trace := [Post a ps; Printf ("Silence added: " +:+ silenceID)];
                status := Return None |}
         end
       ∧ posts (trace (add E c)) = [(a, ps)]
       ∧ httpclient a = httpConfig
       ∧ (httpConfigFile E = "" → ∀ h, headerOf h a = None))
  ∧ (∀ c ps httpConfig tenants,
       tenant c = "" → tenantFile c ≠ "" →
       prepare E c = inl ps →
       NewAlertmanagerClientConfig E = inl httpConfig →
       readTenantFromFile E (tenantFile c) = inl tenants →
       add E c = tenantLoop E c ps httpConfig 0 tenants).
Proof.
  split; [|split].
  - intros f Hcf.
    assert (configureSilenceAddCmd E (setTenantFlag f (Some ""))
            = configureSilenceAddCmd E (setTenantFlag f None)) as Heq.
    { unfold configureSilenceAddCmd, flagValue. cbn.
      destruct Hcf as [-> | ->]; reflexivity. }
    split; [exact Heq | rewrite Heq; reflexivity].
  - intros c ps cfg a Ht Hf Hps Hcfg Ha.
    rewrite (add_prepare_ok E c ps Hps).
    rewrite (dispatch_no_tenant E c ps cfg a Ht Hf Hcfg Ha).
    pose proof (NewAlertmanagerClient_httpclient E cfg a Ha) as Hhc.
    split; [reflexivity|]. split; [|split].
    + destruct (PostSilences E 0 a ps); reflexivity.
    + exact Hhc.
    + intros Hfile h. unfold headerOf. rewrite Hhc.
      unfold NewAlertmanagerClientConfig in Hcfg.
      rewrite bool_decide_eq_false_2 in Hcfg by (intros Hne; apply Hne, Hfile).
      injection Hcfg as <-. reflexivity.
  - intros c ps cfg tenants Ht Hf Hps Hcfg Hread.
    rewrite (add_prepare_ok E c ps Hps). unfold dispatch.
    rewrite Ht, Hcfg. cbn. rewrite (bool_decide_eq_true_2 _ Hf), Hread.
    reflexivity.
Qed.

(** [atm silence add alertname=foo --comment x --tenant ''] *)
Lemma empty_tenant_is_no_tenant_witness :
  let E := Sample.env in
  let f := {| flag_tenant := Some ""; flag_tenant_http_header := None;
              flag_tenant_file := None; flag_author := None;
              flag_require_comment := None; flag_duration := None;
              flag_max_duration := None; flag_start := None;
              flag_end := None; flag_comment := Some "x";
              arg_matcher_groups := ["alertname=foo"] |} in
  add E (configureSilenceAddCmd E f)
  = add E (configureSilenceAddCmd E (setTenantFlag f None))
  ∧ printed (trace (add E (configureSilenceAddCmd E f)))
    = ["Silence added: 1fb1199b-6aec-4575-b6d4-cc5631b77326"]
  ∧ attempted "X-Scope-OrgID" (trace (add E (configureSilenceAddCmd E f)))
    = [None].
Proof.
  intros E f.
  destruct (empty_tenant_is_no_tenant E) as (Hsame & Hrun & _).
  split; [exact (proj2 (Hsame f (or_introl eq_refl)))|].
  destruct (prepare E (configureSilenceAddCmd E f)) as [ps|e] eqn:Hps;
    [|vm_compute in Hps; discriminate].
  destruct (NewAlertmanagerClient E {| HTTPHeaders := None; otherSettings := "" |})
    as [a|x] eqn:Ha; [|vm_compute in Ha; discriminate].
  destruct (Hrun (configureSilenceAddCmd E f) ps _ a eq_refl eq_refl Hps
              eq_refl Ha) as (Hadd & Hposts & _ & Hh).
  split.
  - rewrite Hadd. change (PostSilences E) with Sample.Post.
    unfold Sample.Post. rewrite (Hh eq_refl). reflexivity.
  - unfold attempted. rewrite Hposts. cbn. rewrite (Hh eq_refl). reflexivity.
Defined.

(** C9 as stated fails. With [--tenant ''] and a tenant file the run is
    not one submission without tenant header: both tenants of the file are
    submitted to, each with its header. And when the configuration files
    bind a tenant, [--tenant ''] and no [--tenant] are told apart: the
    first runs without tenant and succeeds, the second submits for the
    bound tenant, here refused. *)
Lemma empty_tenant_flag_is_not_always_no_tenant :
  (let E := Sample.env in
   let c := configureSilenceAddCmd E
              (setTenantFlag (withDurationArgs ["alertname=foo"]) (Some "")) in
   tenant c = ""
   ∧ attempted "X-Scope-OrgID" (trace (add E c))
     = [Some {| Values := ["a"] |}; Some {| Values := ["b"] |}])
  ∧ (let E := setConfig Sample.env (tenantConfig "a") in
     let f := setTenantFileFlag (withDurationArgs ["alertname=foo"]) None in
     status (add E (configureSilenceAddCmd E (setTenantFlag f (Some ""))))
     = Return None
     ∧ status (add E (configureSilenceAddCmd E (setTenantFlag f None)))
       = Return (Some (ErrPostTenant "a" "connection refused"))).
Proof.
  cbv zeta. repeat split; vm_compute; reflexivity.
Qed.

(** ** Further properties: TypeMatchers *)

Lemma assignTypeMatchers_from (matchers : list labels.Matcher)
    (filled : list (option models.Matcher)) :
  assignTypeMatchers (length filled) matchers
    (filled ++ replicate (length matchers) None)
  = filled ++ ((λ m, Some (TypeMatcher m)) <$> matchers).
Proof.
  revert filled. induction matchers as [|m rest IH]; intros filled; cbn.
  - reflexivity.
  - rewrite insert_app_r_alt by lia. rewrite Nat.sub_diag. cbn.
    rewrite (cons_middle (Some (TypeMatcher m)) filled), app_assoc.
    replace (S (length filled)) with (length (filled ++ [Some (TypeMatcher m)]))
      by (rewrite length_app; cbn; lia).
    rewrite IH, <- app_assoc. reflexivity.
Qed.

(** X1. The loop of [TypeMatchers] over a slice of nil pointers leaves no
    nil: the slice it returns has the length of the input, and its slot
    [i] points to [TypeMatcher] of the [i]-th matcher. It is the list
    [TypeMatchers] of this development, pointer by pointer. *)
Theorem TypeMatchersSlice_filled (matchers : list labels.Matcher) :
  TypeMatchersSlice matchers = Some <$> TypeMatchers matchers
  ∧ length (TypeMatchersSlice matchers) = length matchers
  ∧ (None ∉ TypeMatchersSlice matchers)
  ∧ (∀ i m, matchers !! i = Some m →
       TypeMatchersSlice matchers !! i = Some (Some (TypeMatcher m))).
Proof.
  assert (TypeMatchersSlice matchers = Some <$> TypeMatchers matchers) as Heq.
  { unfold TypeMatchersSlice, TypeMatchers.
    pose proof (assignTypeMatchers_from matchers []) as Hloop.
    cbn in Hloop. rewrite Hloop, <- list_fmap_compose. reflexivity. }
  split; [exact Heq|]. rewrite Heq. split; [|split].
  - unfold TypeMatchers. rewrite !length_fmap. reflexivity.
  - intros Hin. apply list_elem_of_fmap in Hin as (x & Hx & _). discriminate.
  - intros i m Hi. unfold TypeMatchers. rewrite !list_lookup_fmap, Hi.
    reflexivity.
Qed.

Lemma TypeMatchersSlice_filled_witness :
  TypeMatchersSlice
    [ {| labels.Type_ := labels.MatchEqual; labels.Name := "alertname";
         labels.Value := "foo" |};
      {| labels.Type_ := labels.MatchNotRegexp; labels.Name := "node";
         labels.Value := "bar.*" |} ] !! 1
  = Some (Some {| models.IsEqual := Some false; models.IsRegex := Some true;
                  models.Name := Some "node"; models.Value := Some "bar.*" |}).
Proof.
  apply (proj2 (proj2 (proj2 (TypeMatchersSlice_filled
           [ {| labels.Type_ := labels.MatchEqual; labels.Name := "alertname";
                labels.Value := "foo" |};
             {| labels.Type_ := labels.MatchNotRegexp; labels.Name := "node";
                labels.Value := "bar.*" |} ]))) 1
           {| labels.Type_ := labels.MatchNotRegexp; labels.Name := "node";
              labels.Value := "bar.*" |}).
  reflexivity.
Defined.

(** ** Further properties: requireAlertManagerURL *)

Lemma helpFlagSet_spec (elements : list Clause) :
  helpFlagSet elements = true
  ↔ ∃ name, FlagClause name ∈ elements ∧ isHelpFlag name.
Proof.
  unfold isHelpFlag. induction elements as [|[name|name|name] rest IH]; cbn.
  - split; [discriminate|]. intros (name & Hin & _).
    apply elem_of_nil in Hin. destruct Hin.
  - destruct (decide (name = "help" ∨ name = "help-long" ∨ name = "help-man"))
      as [Hh|Hn].
    + assert (bool_decide (name = "help") || bool_decide (name = "help-long")
              || bool_decide (name = "help-man") = true) as ->.
      { destruct Hh as [->|[->| ->]]; reflexivity. }
      split; [|reflexivity]. intros _. exists name. split; [left|exact Hh].
    + assert (bool_decide (name = "help") || bool_decide (name = "help-long")
              || bool_decide (name = "help-man") = false) as ->.
      { rewrite !orb_false_iff. repeat split; apply bool_decide_eq_false_2;
          intros ->; apply Hn; auto. }
      rewrite IH. split.
      * intros (n & Hin & Hh). exists n. split; [right; exact Hin | exact Hh].
      * intros (n & Hin & Hh). apply elem_of_cons in Hin as [Heq|Hin].
        -- injection Heq as ->. contradiction.
        -- eauto.
  - rewrite IH. split.
    + intros (n & Hin & Hh). exists n. split; [right; exact Hin | exact Hh].
    + intros (n & Hin & Hh). apply elem_of_cons in Hin as [Heq|Hin];
        [discriminate | eauto].
  - rewrite IH. split.
    + intros (n & Hin & Hh). exists n. split; [right; exact Hin | exact Hh].
    + intros (n & Hin & Hh). apply elem_of_cons in Hin as [Heq|Hin];
        [discriminate | eauto].
Qed.

(** X2. [requireAlertManagerURL] ends the process exactly when the URL is
    not set and no parsed element is a flag named help, help-long or
    help-man, wherever such a flag stands among the elements; an argument
    or a command of that name does not count. *)
Theorem requireAlertManagerURL_exits_iff (alertmanagerURL : option URL)
    (elements : list Clause) :
  (requireAlertManagerURL alertmanagerURL elements
   = Some "required flag --alertmanager.url not provided"
   ↔ alertmanagerURL = None
     ∧ ¬ ∃ name, FlagClause name ∈ elements ∧ isHelpFlag name)
  ∧ (requireAlertManagerURL alertmanagerURL elements = None
     ↔ alertmanagerURL ≠ None
       ∨ ∃ name, FlagClause name ∈ elements ∧ isHelpFlag name).
Proof.
  unfold requireAlertManagerURL.
  pose proof (helpFlagSet_spec elements) as Hhelp.
  destruct (helpFlagSet elements).
  - assert (∃ name, FlagClause name ∈ elements ∧ isHelpFlag name) as Hex
      by (apply Hhelp; reflexivity).
    split; split; try discriminate; auto.
    intros [_ Hno]. contradiction.
  - assert (¬ ∃ name, FlagClause name ∈ elements ∧ isHelpFlag name) as Hno.
    { intros Hex. apply Hhelp in Hex. discriminate. }
    destruct alertmanagerURL as [u|]; cbn.
    + split; split; try discriminate; auto.
      intros [Hnone _]. discriminate.
    + split; split; try discriminate; auto.
      intros [Hsome|Hex]; contradiction.
Qed.

Lemma requireAlertManagerURL_exits_iff_witness :
  requireAlertManagerURL None
    [CmdClause "silence"; ArgClause "help"; FlagClause "timeout";
     FlagClause "help-long"] = None.
Proof.
  apply (proj2 (requireAlertManagerURL_exits_iff None _)). right.
  exists "help-long". split.
  - do 3 right. left.
  - right. left. reflexivity.
Defined.


(** ** Further properties: setHTTPTenantHeader *)

(** X3. [setHTTPTenantHeader] panics exactly when the configuration has a
    headers structure whose map is nil. Whenever it returns, the tenant
    header holds exactly the one tenant, whether the configuration had no
    headers or already had that header; every other header and every
    other setting is kept; and setting the header again on the result never
    panics and replaces the tenant instead of adding one. *)
Theorem setHTTPTenantHeader_overwrites (httpConfig : HTTPClientConfig)
    (t t' h : string) :
  (setHTTPTenantHeader httpConfig t h = None
   ↔ ∃ headers, HTTPHeaders httpConfig = Some headers
                ∧ HeadersMap headers = None)
  ∧ (∀ httpConfig',
       setHTTPTenantHeader httpConfig t h = Some httpConfig' →
       configHeader h httpConfig' = Some {| Values := [t] |}
       ∧ (∀ h', h ≠ h' →
            configHeader h' httpConfig' = configHeader h' httpConfig)
       ∧ otherSettings httpConfig' = otherSettings httpConfig
       ∧ is_Some (setHTTPTenantHeader httpConfig' t' h)
       ∧ setHTTPTenantHeader httpConfig' t' h
         = setHTTPTenantHeader httpConfig t' h).
Proof.
  split.
  - unfold setHTTPTenantHeader.
    destruct (HTTPHeaders httpConfig) as [[[m|]]|]; cbn; split;
      try discriminate; eauto.
    + intros (headers & [= <-] & Hnil). discriminate.
    + intros (headers & Hsome & _). discriminate.
  - intros cfg' Hset.
    split; [eapply setHTTPTenantHeader_lookup, Hset|].
    split; [intros h' Hne; eapply setHTTPTenantHeader_other; eassumption|].
    split; [eapply setHTTPTenantHeader_settings, Hset|].
    split; [|eapply setHTTPTenantHeader_again, Hset].
    apply setHTTPTenantHeader_is_Some.
    eapply setHTTPTenantHeader_assignable, Hset.
Qed.

(** A configuration file with an [Authorization] header, and one with
    [http_headers: {}]. *)
Lemma setHTTPTenantHeader_overwrites_witness :
  (∃ httpConfig',
     setHTTPTenantHeader
       {| HTTPHeaders :=
            Some {| HeadersMap :=
                      Some {[ "Authorization" := {| Values := ["token"] |} ]} |};
          otherSettings := "" |} "a" "X-Scope-OrgID" = Some httpConfig'
     ∧ configHeader "X-Scope-OrgID" httpConfig' = Some {| Values := ["a"] |})
  ∧ setHTTPTenantHeader
      {| HTTPHeaders := Some {| HeadersMap := None |}; otherSettings := "" |}
      "a" "X-Scope-OrgID" = None.
Proof.
  split.
  - eexists. split; [reflexivity|].
    exact (proj1 (proj2 (setHTTPTenantHeader_overwrites
             {| HTTPHeaders :=
                  Some {| HeadersMap :=
                            Some {[ "Authorization" := {| Values := ["token"] |} ]} |};
                otherSettings := "" |} "a" "a" "X-Scope-OrgID") _ eq_refl)).
  - apply (proj1 (setHTTPTenantHeader_overwrites
             {| HTTPHeaders := Some {| HeadersMap := None |}; otherSettings := "" |}
             "a" "a" "X-Scope-OrgID")).
    eexists. split; reflexivity.
Defined.

(** ** Further properties: the matchers *)

Lemma rewriteFirst_length (E : Env) (ms : list string) :
  length (rewriteFirst E ms) = length ms.
Proof.
  destruct ms as [|m0 rest]; cbn; [reflexivity|].
  destruct (compat_Matcher E m0); reflexivity.
Qed.

Lemma parseEach_inl_iff (E : Env) (ms : list string) (parsed : list labels.Matcher) :
  parseEach E ms = inl parsed
  ↔ Forall2 (λ s m, compat_Matcher E s = inl m) ms parsed.
Proof.
  revert parsed. induction ms as [|s rest IH]; intros parsed; cbn.
  - split.
    + intros [= <-]. constructor.
    + intros H. apply Forall2_nil_inv_l in H as ->. reflexivity.
  - split.
    + destruct (compat_Matcher E s) as [m|err] eqn:Hs; [|discriminate].
      intros H. apply bind_inl in H as (tl & Htl & [= <-]).
      constructor; [exact Hs | apply IH, Htl].
    + intros H. apply Forall2_cons_inv_l in H as (m & tl & Hs & Htl & ->).
      rewrite Hs. apply IH in Htl. rewrite Htl. reflexivity.
Qed.

(** The loop stops at the first string that fails, with its error. *)
Lemma parseEach_first_failure (E : Env) (before after : list string)
    (s err : string) :
  Forall (λ s', ∃ m, compat_Matcher E s' = inl m) before →
  compat_Matcher E s = inr err →
  parseEach E (before ++ s :: after) = inr (ErrMatcher err).
Proof.
  intros Hbefore Hs. induction Hbefore as [|s' before [m Hm] _ IH]; cbn.
  - rewrite Hs. reflexivity.
  - rewrite Hm, IH. reflexivity.
Qed.

(** X4. Matcher parsing succeeds exactly when the list is not empty and
    every element parses, the first one as rewritten if it did not parse
    as given; the matchers are then those of the elements, in order and as
    many as the arguments. *)
Theorem parseMatchers_succeeds_iff (E : Env) (ms : list string)
    (parsed : list labels.Matcher) :
  (parseMatchers E ms = inl parsed
   ↔ ms ≠ []
     ∧ Forall2 (λ s m, compat_Matcher E s = inl m) (rewriteFirst E ms) parsed)
  ∧ (parseMatchers E ms = inl parsed → length parsed = length ms).
Proof.
  assert (parseMatchers E ms = inl parsed
   ↔ ms ≠ []
     ∧ Forall2 (λ s m, compat_Matcher E s = inl m) (rewriteFirst E ms) parsed)
    as Hiff.
  { destruct ms as [|m0 rest].
    - rewrite parseMatchers_nil. split; [discriminate | intros [[] _]; done].
    - rewrite parseMatchers_cons, parseEach_inl_iff. split; [|tauto].
      intros H. split; [discriminate | exact H]. }
  split; [exact Hiff|].
  intros H. apply Hiff in H as [_ H]. apply Forall2_length in H.
  rewrite rewriteFirst_length in H. symmetry. exact H.
Qed.

Lemma parseMatchers_succeeds_iff_witness :
  length [ {| labels.Type_ := labels.MatchEqual; labels.Name := "alertname";
              labels.Value := "foo" |};
           {| labels.Type_ := labels.MatchRegexp; labels.Name := "node";
              labels.Value := "bar.*" |} ]
  = length ["foo"; "node=~bar.*"].
Proof.
  apply (proj2 (parseMatchers_succeeds_iff Sample.env ["foo"; "node=~bar.*"] _)).
  vm_compute. reflexivity.
Defined.

(** X5. When an element of the list (the first one taken as rewritten)
    fails to parse and all elements before it parse, [add] returns the
    parser's error for that element, and nothing is sent or printed: the
    elements after it are not looked at. *)
Theorem first_failing_matcher_reported (E : Env) (c : silenceAddCmd)
    (before after : list string) (s err : string) :
  rewriteFirst E (matchers c) = before ++ s :: after →
  Forall (λ s', ∃ m, compat_Matcher E s' = inl m) before →
  compat_Matcher E s = inr err →
  add E c = failed (ErrMatcher err).
Proof.
  intros Hrw Hbefore Hs. apply add_prepare_err. unfold prepare.
  destruct (matchers c) as [|m0 rest] eqn:Hms.
  { cbn in Hrw. destruct before; discriminate. }
  rewrite parseMatchers_cons, Hrw.
  rewrite (parseEach_first_failure E before after s err Hbefore Hs).
  reflexivity.
Qed.

Lemma first_failing_matcher_reported_witness :
  add Sample.env
    (configureSilenceAddCmd Sample.env
       (Sample.noFlags ["foo"; "node"; "also bad"]))
  = failed (ErrMatcher "bad matcher format: node").
Proof.
  apply (first_failing_matcher_reported Sample.env _
           ["alertname=" +:+ dquote +:+ "foo" +:+ dquote] ["also bad"] "node").
  - reflexivity.
  - constructor; [|constructor]. eexists. vm_compute. reflexivity.
  - reflexivity.
Defined.

Lemma prepare_setMatchers (E : Env) (c : silenceAddCmd) (ms : list string) :
  parseMatchers E ms = parseMatchers E (matchers c) →
  prepare E (setMatchers c ms) = prepare E c.
Proof.
  intros Hpm. unfold prepare. cbn [matchers setMatchers]. rewrite Hpm.
  reflexivity.
Qed.

(** X6. A first argument that does not parse stands for the matcher
    [alertname=] followed by its quoted form: when that matcher parses,
    the whole run of [add] is the one of the command given the rewritten
    list. *)
Theorem bare_name_shorthand (E : Env) (c : silenceAddCmd)
    (m0 : string) (rest : list string) (err : string) (m : labels.Matcher) :
  matchers c = m0 :: rest →
  compat_Matcher E m0 = inr err →
  compat_Matcher E ("alertname=" +:+ strconv_Quote E m0) = inl m →
  add E c = add E (setMatchers c (("alertname=" +:+ strconv_Quote E m0) :: rest)).
Proof.
  intros Hms Hfail Hok.
  set (rewritten := "alertname=" +:+ strconv_Quote E m0) in *.
  assert (parseMatchers E (rewritten :: rest) = parseMatchers E (matchers c))
    as Hpm.
  { rewrite Hms, !parseMatchers_cons. cbn [rewriteFirst].
    rewrite Hfail, Hok. reflexivity. }
  unfold add. rewrite (prepare_setMatchers E c _ Hpm).
  destruct (prepare E c) as [ps|e]; [|reflexivity].
  apply dispatch_tenant_fields; reflexivity.
Qed.

Lemma bare_name_shorthand_witness :
  add Sample.env
    (configureSilenceAddCmd Sample.env (withDurationArgs ["foo"; "node=bar"]))
  = add Sample.env
      (configureSilenceAddCmd Sample.env
         (withDurationArgs ["alertname=" +:+ dquote +:+ "foo" +:+ dquote;
                            "node=bar"])).
Proof.
  exact (bare_name_shorthand Sample.env
           (configureSilenceAddCmd Sample.env (withDurationArgs ["foo"; "node=bar"]))
           "foo" ["node=bar"] "bad matcher format: foo"
           {| labels.Type_ := labels.MatchEqual; labels.Name := "alertname";
              labels.Value := "foo" |} eq_refl eq_refl eq_refl).
Defined.


(** ** Further properties: the payload *)

(** X7. Every payload [add] submits carries the matchers of the
    arguments, one per argument and at least one, each with its four
    pointers set, the author and the comment of the command; the comment
    is not empty when a comment is required. *)
Theorem submitted_payload (E : Env) (c : silenceAddCmd)
    (p : AlertmanagerAPI * PostableSilence) :
  p ∈ posts (trace (add E c)) →
  ∃ parsed,
    parseMatchers E (matchers c) = inl parsed
    ∧ Matchers p.2 = TypeMatchers parsed
    ∧ length (Matchers p.2) = length (matchers c)
    ∧ 1 ≤ length (Matchers p.2)
    ∧ Forall allFieldsSet (Matchers p.2)
    ∧ CreatedBy p.2 = Some (author c)
    ∧ Comment p.2 = Some (comment c)
    ∧ (requireComment c = true → comment c ≠ "").
Proof.
  intros Hin. apply add_posts, prepare_inl in Hin
    as (parsed & s & e & Hp & _ & _ & _ & Hc & ->).
  exists parsed. cbn.
  assert (length parsed = length (matchers c)) as Hlen.
  { destruct (matchers c) as [|m0 rest] eqn:Hms; [discriminate|].
    rewrite parseMatchers_cons in Hp. apply parseEach_length in Hp.
    rewrite Hp, rewriteFirst_length. reflexivity. }
  assert (length (TypeMatchers parsed) = length (matchers c)) as Hlen'.
  { unfold TypeMatchers. rewrite length_fmap. exact Hlen. }
  repeat split; try assumption; try reflexivity.
  - rewrite Hlen'. destruct (matchers c); [discriminate | cbn; lia].
  - unfold TypeMatchers. apply Forall_fmap, Forall_forall.
    intros m _. repeat split; cbn; eauto.
  - intros Hrc Hempty. unfold checkComment in Hc.
    rewrite Hrc, Hempty in Hc. discriminate.
Qed.

Lemma submitted_payload_witness :
  let E := Sample.env in
  let c := configureSilenceAddCmd E (withDurationArgs ["foo"; "node=bar"]) in
  ∃ p, p ∈ posts (trace (add E c))
       ∧ length (Matchers p.2) = 2 ∧ CreatedBy p.2 = Some "fgouteroux".
Proof.
  intros E c.
  destruct (posts (trace (add E c))) as [|p rest] eqn:Hposts;
    [vm_compute in Hposts; discriminate|].
  assert (p ∈ posts (trace (add E c))) as Hin by (rewrite Hposts; left).
  exists p. split; [rewrite <- Hposts; exact Hin|].
  destruct (submitted_payload E c p Hin) as (parsed & _ & _ & Hlen & _ & _ & Ha & _).
  split; [exact Hlen | exact Ha].
Defined.

(** X8. A command that requires a comment and has none never sends or
    prints anything and never succeeds: it returns an error of the
    preparation. Conversely [add] returns "comment required by config" only
    for such a command. With no [--require-comment] and no [--comment] on
    the command line the command is such a one, unless the configuration
    files lift the requirement or bind a comment. *)
Theorem missing_comment_never_submits (E : Env) :
  (∀ c, requireComment c = true → comment c = "" →
     ∃ e, add E c = failed e ∧ validationKind (kind e) = true)
  ∧ (∀ c, status (add E c) = Return (Some ErrCommentRequired) →
       requireComment c = true ∧ comment c = "")
  ∧ (∀ f, flag_require_comment f = None → flag_comment f = None →
       config_require_comment (configFlags E) ≠ Some false →
       config_comment (configFlags E) = None
       ∨ config_comment (configFlags E) = Some "" →
       trace (add E (configureSilenceAddCmd E f)) = []
       ∧ status (add E (configureSilenceAddCmd E f)) ≠ Return None).
Proof.
  assert (∀ c, requireComment c = true → comment c = "" →
     ∃ e, add E c = failed e ∧ validationKind (kind e) = true) as Hnever.
  { intros c Hrc Hempty. destruct (prepare E c) as [ps|e] eqn:Hp.
    - apply prepare_inl in Hp as (_ & _ & _ & _ & _ & _ & _ & Hc & _).
      unfold checkComment in Hc. rewrite Hrc, Hempty in Hc. discriminate.
    - exists e. split; [apply add_prepare_err, Hp|].
      eapply prepare_error_kind, Hp. }
  split; [exact Hnever|]. split.
  - intros c Hst. unfold add in Hst.
    destruct (prepare E c) as [ps|e] eqn:Hp.
    { apply dispatch_error_kind in Hst as [Hk|Hk]; discriminate. }
    cbn in Hst. injection Hst as ->. unfold prepare in Hp.
    apply bind_inr in Hp as [Hp|(parsed & _ & Hp)].
    { apply parseMatchers_error in Hp as [[msg Hp]|Hp]; discriminate. }
    apply bind_inr in Hp as [Hp|(s & _ & Hp)].
    { apply resolveStart_error in Hp as [msg Hp]. discriminate. }
    apply bind_inr in Hp as [Hp|(t & _ & Hp)].
    { apply resolveEnd_error in Hp
        as [[_ [msg Hp]]|[_ [[msg Hp]|[Hp|Hp]]]]; discriminate. }
    apply bind_inr in Hp as [Hp|([] & _ & Hp)].
    { apply checkWindow_error in Hp as [Hp _]. discriminate. }
    apply bind_inr in Hp as [Hp|([] & _ & Hp)]; [|discriminate].
    unfold checkComment in Hp.
    destruct (requireComment c); [|discriminate].
    case_bool_decide; [auto | discriminate].
  - intros f Hrc Hc Hcrc Hcc.
    destruct (Hnever (configureSilenceAddCmd E f)) as (e & -> & _).
    + cbn. unfold flagValue. rewrite Hrc. cbn.
      destruct (config_require_comment (configFlags E)) as [[]|];
        [reflexivity | contradiction | reflexivity].
    + cbn. unfold flagValue. rewrite Hc. cbn.
      destruct Hcc as [-> | ->]; reflexivity.
    + split; [reflexivity | discriminate].
Qed.

Lemma missing_comment_never_submits_witness :
  trace (add Sample.env
           (configureSilenceAddCmd Sample.env (Sample.noFlags ["alertname=foo"])))
  = [].
Proof.
  exact (proj1 (proj2 (proj2 (missing_comment_never_submits Sample.env))
                  (Sample.noFlags ["alertname=foo"]) eq_refl eq_refl
                  ltac:(discriminate) (or_introl eq_refl))).
Defined.

(** ** Further properties: the window *)

(** X9. Without an explicit end, every window [add] submits is as long as
    the parsed duration, and that length is greater than zero and at most
    the limit: no silence above the limit is submitted on this path. *)
Theorem submitted_duration_within_limit (E : Env) (c : silenceAddCmd)
    (p : AlertmanagerAPI * PostableSilence) :
  end_ c = "" →
  p ∈ posts (trace (add E c)) →
  ∃ startsAt d,
    model_ParseDuration E (duration c) = (d, None)
    ∧ StartsAt p.2 = Some startsAt
    ∧ EndsAt p.2 = Some (startsAt + d)%Z
    ∧ (0 < d ≤ limit E c)%Z.
Proof.
  intros Hend Hin. apply add_posts, prepare_inl in Hin
    as (parsed & s & e & _ & _ & He & Hw & _ & ->).
  apply checkWindow_inl in Hw.
  rewrite resolveEnd_duration in He by done.
  unfold durationEnd, checkMaxDuration in He. fold (limit E c) in He.
  destruct (model_ParseDuration E (duration c)) as [d [err|]] eqn:Hd;
    [discriminate|].
  case_bool_decide as Hz; [discriminate|]. cbn in He.
  case_bool_decide as Hgt; [discriminate|]. cbn in He.
  injection He as <-. unfold Add in Hw.
  exists s, d. repeat split; try reflexivity; lia.
Qed.

Lemma submitted_duration_within_limit_witness :
  let E := Sample.env in
  let c := configureSilenceAddCmd E (withDuration "10m" "12h") in
  ∃ p, p ∈ posts (trace (add E c))
       ∧ ∃ startsAt d, model_ParseDuration E (duration c) = (d, None)
           ∧ StartsAt p.2 = Some startsAt
           ∧ EndsAt p.2 = Some (startsAt + d)%Z
           ∧ (0 < d ≤ limit E c)%Z.
Proof.
  intros E c.
  destruct (posts (trace (add E c))) as [|p rest] eqn:Hposts;
    [vm_compute in Hposts; discriminate|].
  assert (p ∈ posts (trace (add E c))) as Hin by (rewrite Hposts; left).
  exists p. split; [rewrite <- Hposts; exact Hin|].
  exact (submitted_duration_within_limit E c p eq_refl Hin).
Defined.

(** X10. The start of every submitted window is the instant read from the
    clock when no start is given, and the parsed start otherwise; a start
    that does not parse makes [add] return the error of that parse once the
    matchers are parsed, whatever the end and the duration. *)
Theorem start_of_window (E : Env) (c : silenceAddCmd) :
  (start c = "" →
     ∀ p, p ∈ posts (trace (add E c)) → StartsAt p.2 = Some (time_Now E))
  ∧ (start c ≠ "" →
     ∀ p, p ∈ posts (trace (add E c)) →
       ∃ t, time_Parse E (start c) = inl t ∧ StartsAt p.2 = Some t)
  ∧ (∀ parsed err, start c ≠ "" →
       parseMatchers E (matchers c) = inl parsed →
       time_Parse E (start c) = inr err →
       add E c = failed (ErrStart err)).
Proof.
  split; [|split].
  - intros Hs p Hin. apply add_posts, prepare_inl in Hin
      as (parsed & s & e & _ & Hst & _ & _ & _ & ->).
    unfold resolveStart in Hst.
    rewrite bool_decide_eq_false_2 in Hst by (intros Hne; apply Hne, Hs).
    injection Hst as <-. reflexivity.
  - intros Hs p Hin. apply add_posts, prepare_inl in Hin
      as (parsed & s & e & _ & Hst & _ & _ & _ & ->).
    unfold resolveStart in Hst. rewrite bool_decide_eq_true_2 in Hst by done.
    destruct (time_Parse E (start c)) as [t|err]; [|discriminate].
    injection Hst as <-. eauto.
  - intros parsed err Hs Hp Ht. apply add_prepare_err. unfold prepare.
    rewrite Hp. cbn. unfold resolveStart.
    rewrite bool_decide_eq_true_2, Ht by done. reflexivity.
Qed.

Lemma start_of_window_witness :
  add Sample.env
    (configureSilenceAddCmd Sample.env
       (withWindow "yesterday" "2024-01-01T01:00:00Z" "1h" "12h"))
  = failed (ErrStart "parsing time yesterday: cannot parse").
Proof.
  apply (proj2 (proj2 (start_of_window Sample.env
           (configureSilenceAddCmd Sample.env
              (withWindow "yesterday" "2024-01-01T01:00:00Z" "1h" "12h"))))
           [ {| labels.Type_ := labels.MatchEqual; labels.Name := "alertname";
                labels.Value := "foo" |} ]
           "parsing time yesterday: cannot parse").
  - vm_compute. discriminate.
  - reflexivity.
  - reflexivity.
Defined.


(** ** Further properties: the dispatch *)

(** X11. With a single tenant and no tenant file, once the command is
    prepared, the tenant header set and the client built, [add] makes
    exactly one submission,
    with the tenant header set to the tenant; a failure of it is returned
    as the error of the command, naming the tenant, and nothing is printed;
    a success prints one line and returns nil. *)
Theorem single_tenant_mode (E : Env) (c : silenceAddCmd) (ps : PostableSilence)
    (httpConfig httpConfig' : HTTPClientConfig) (a : AlertmanagerAPI) :
  tenant c ≠ "" → tenantFile c = "" →
  prepare E c = inl ps →
  NewAlertmanagerClientConfig E = inl httpConfig →
  setHTTPTenantHeader httpConfig (tenant c) (tenantHTTPHeader c)
  = Some httpConfig' →
  NewAlertmanagerClient E httpConfig' = inl a →
  add E c =
    match PostSilences E 0 a ps with
    | inr err =>
        {| trace := [Post a ps];
           status := Return (Some (ErrPostTenant (tenant c) err)) |}
    | inl silenceID =>
        {| trace := [Post a ps;
                     Printf ("Silence added for '" +:+ tenant c +:+ "' tenant: "
                               +:+ silenceID)];
           status := Return None |}
    end
  ∧ posts (trace (add E c)) = [(a, ps)]
  ∧ headerOf (tenantHTTPHeader c) a = Some {| Values := [tenant c] |}.
Proof.
  intros Ht Hf Hps Hcfg Hset Ha.
  assert (add E c =
    match PostSilences E 0 a ps with
    | inr err =>
        {| trace := [Post a ps];
           status := Return (Some (ErrPostTenant (tenant c) err)) |}
    | inl silenceID =>
        {| trace := [Post a ps;
                     Printf ("Silence added for '" +:+ tenant c +:+ "' tenant: "
                               +:+ silenceID)];
           status := Return None |}
    end) as Hadd.
  { rewrite (add_prepare_ok E c ps Hps). unfold dispatch.
    rewrite Hf, Hcfg, (bool_decide_eq_true_2 _ Ht). cbn. rewrite Hset, Ha.
    reflexivity. }
  split; [exact Hadd|]. split.
  - rewrite Hadd. destruct (PostSilences E 0 a ps); reflexivity.
  - unfold headerOf. rewrite (NewAlertmanagerClient_httpclient _ _ _ Ha).
    eapply setHTTPTenantHeader_lookup, Hset.
Qed.

Lemma single_tenant_mode_witness :
  let E := Sample.env in
  let c := configureSilenceAddCmd E (setTenantFlag
             (setTenantFileFlag (withDurationArgs ["alertname=foo"]) None)
             (Some "a")) in
  status (add E c)
  = Return (Some (ErrPostTenant "a" "connection refused")).
Proof.
  intros E c.
  destruct (prepare E c) as [ps|e] eqn:Hps; [|vm_compute in Hps; discriminate].
  destruct (setHTTPTenantHeader {| HTTPHeaders := None; otherSettings := "" |}
              (tenant c) (tenantHTTPHeader c)) as [cfg'|] eqn:Hset;
    [|vm_compute in Hset; discriminate].
  destruct (NewAlertmanagerClient E cfg') as [a|x] eqn:Ha;
    [|vm_compute in Ha; discriminate].
  destruct (single_tenant_mode E c ps _ cfg' a ltac:(vm_compute; discriminate)
              eq_refl Hps eq_refl Hset Ha) as (Hadd & _ & Hh).
  rewrite Hadd. change (PostSilences E) with Sample.Post. unfold Sample.Post.
  change (tenantHTTPHeader c) with "X-Scope-OrgID" in Hh.
  rewrite Hh. reflexivity.
Defined.

Lemma tenantLoop_counts (E : Env) (c : silenceAddCmd) (ps : PostableSilence)
    (tenants : list string) (httpConfig : HTTPClientConfig) (n : nat) :
  length (printed (trace (tenantLoop E c ps httpConfig n tenants)))
  = length (posts (trace (tenantLoop E c ps httpConfig n tenants)))
  ∧ attempted (tenantHTTPHeader c)
      (trace (tenantLoop E c ps httpConfig n tenants))
    `prefix_of` ((λ t, Some {| Values := [t] |}) <$> tenants).
Proof.
  revert httpConfig n. induction tenants as [|t rest IH]; intros cfg n; cbn.
  - split; [reflexivity | apply prefix_nil].
  - destruct (setHTTPTenantHeader cfg t (tenantHTTPHeader c)) as [cfg'|] eqn:Hset;
      cbn; [|split; [reflexivity | apply prefix_nil]].
    destruct (NewAlertmanagerClient E _) as [a|f] eqn:Ha; cbn.
    + destruct (IH cfg' (S n)) as [Hlen Hpre].
      split; [f_equal; exact Hlen|].
      unfold attempted in *. cbn. unfold headerOf at 1.
      rewrite (NewAlertmanagerClient_httpclient _ _ _ Ha),
        (setHTTPTenantHeader_lookup _ _ _ _ Hset).
      apply prefix_cons, Hpre.
    + split; [reflexivity | apply prefix_nil].
Qed.

(** X12. In every run of [add] no line is printed without a submission
    before it: there are at most as many lines as submissions. Outside
    the file mode at most one submission is made. In the file mode each
    submission has its line, and the tenants submitted to are the first
    tenants of the file, in order, none skipped and none repeated. *)
Theorem trace_shape (E : Env) (c : silenceAddCmd) :
  length (printed (trace (add E c))) ≤ length (posts (trace (add E c)))
  ∧ (tenant c ≠ "" ∨ tenantFile c = "" →
       length (posts (trace (add E c))) ≤ 1)
  ∧ (∀ tenants, tenant c = "" → tenantFile c ≠ "" →
       readTenantFromFile E (tenantFile c) = inl tenants →
       length (printed (trace (add E c))) = length (posts (trace (add E c)))
       ∧ attempted (tenantHTTPHeader c) (trace (add E c))
         `prefix_of` ((λ t, Some {| Values := [t] |}) <$> tenants)).
Proof.
  unfold add. destruct (prepare E c) as [ps|e]; cbn.
  2:{ split; [lia|]. split; [lia|]. intros. split; [reflexivity|].
      apply prefix_nil. }
  unfold dispatch.
  destruct (bool_decide (tenant c ≠ "")) eqn:Ht;
    destruct (bool_decide (tenantFile c ≠ "")) eqn:Hf; cbn.
  - split; [lia|]. split; [lia|]. intros tenants Hte.
    apply bool_decide_eq_true_1 in Ht. contradiction.
  - destruct (NewAlertmanagerClientConfig E) as [cfg|f]; cbn.
    2:{ split; [lia|]. split; [lia|]. intros tenants Hte.
        apply bool_decide_eq_true_1 in Ht. contradiction. }
    destruct (setHTTPTenantHeader cfg _ _) as [cfg'|]; cbn.
    2:{ split; [lia|]. split; [lia|]. intros tenants Hte.
        apply bool_decide_eq_true_1 in Ht. contradiction. }
    destruct (NewAlertmanagerClient E _) as [a|f]; cbn.
    2:{ split; [lia|]. split; [lia|]. intros tenants Hte.
        apply bool_decide_eq_true_1 in Ht. contradiction. }
    destruct (PostSilences E 0 a ps); cbn; (split; [lia|]); (split; [lia|]);
      intros tenants Hte; apply bool_decide_eq_true_1 in Ht; contradiction.
  - apply bool_decide_eq_false_1 in Ht. apply bool_decide_eq_true_1 in Hf.
    destruct (NewAlertmanagerClientConfig E) as [cfg|f]; cbn.
    2:{ split; [lia|]. split; [lia|]. intros. split; [reflexivity|].
        apply prefix_nil. }
    destruct (readTenantFromFile E (tenantFile c)) as [tenants|e]; cbn.
    2:{ split; [lia|]. split; [lia|]. intros; discriminate. }
    destruct (tenantLoop_counts E c ps tenants cfg 0) as [Hlen Hpre].
    split; [lia|]. split.
    + intros [Hc|Hc]; [|contradiction]. exfalso. apply Ht, Hc.
    + intros tenants' _ _ [= <-]. split; [exact Hlen | exact Hpre].
  - apply bool_decide_eq_false_1 in Hf.
    destruct (NewAlertmanagerClientConfig E) as [cfg|f]; cbn.
    2:{ split; [lia|]. split; [lia|]. intros tenants _ Hne.
        exfalso. apply Hf, Hne. }
    destruct (NewAlertmanagerClient E _) as [a|f]; cbn.
    2:{ split; [lia|]. split; [lia|]. intros tenants _ Hne.
        exfalso. apply Hf, Hne. }
    destruct (PostSilences E 0 a ps); cbn; (split; [lia|]); (split; [lia|]);
      intros tenants _ Hne; exfalso; apply Hf, Hne.
Qed.

Lemma trace_shape_witness :
  let E := Sample.env in
  let c := configureSilenceAddCmd E (withDurationArgs ["alertname=foo"]) in
  attempted (tenantHTTPHeader c) (trace (add E c))
  `prefix_of` [Some {| Values := ["a"] |}; Some {| Values := ["b"] |}].
Proof.
  intros E c.
  exact (proj2 (proj2 (proj2 (trace_shape E c)) ["a"; "b"] eq_refl
                  ltac:(vm_compute; discriminate) eq_refl)).
Defined.

(** X13. In the file mode, once the command is prepared and the
    configuration loaded: a tenant file that cannot be opened makes [add]
    return the error naming the file, nothing being sent; a file without
    tenants makes [add] return nil having done nothing; and the only error
    [add] can return is the one of the file: a failed submission never
    becomes the error of the command, even when every submission fails. *)
Theorem file_mode_result (E : Env) (c : silenceAddCmd) (ps : PostableSilence)
    (httpConfig : HTTPClientConfig) :
  tenant c = "" → tenantFile c ≠ "" →
  prepare E c = inl ps →
  NewAlertmanagerClientConfig E = inl httpConfig →
  (∀ err, os_Open E (tenantFile c) = inr err →
     add E c = failed (ErrTenantFile (tenantFile c) err))
  ∧ (readTenantFromFile E (tenantFile c) = inl [] →
       add E c = {| trace := []; status := Return None |})
  ∧ (∀ e, status (add E c) = Return (Some e) →
       ∃ err, os_Open E (tenantFile c) = inr err
              ∧ e = ErrTenantFile (tenantFile c) err).
Proof.
  intros Ht Hf Hps Hcfg.
  assert (add E c =
    match readTenantFromFile E (tenantFile c) with
    | inr err => failed err
    | inl tenants => tenantLoop E c ps httpConfig 0 tenants
    end) as Hadd.
  { rewrite (add_prepare_ok E c ps Hps). unfold dispatch.
    rewrite Ht, Hcfg. cbn. rewrite (bool_decide_eq_true_2 _ Hf).
    reflexivity. }
  rewrite Hadd. unfold readTenantFromFile. split; [|split].
  - intros err ->. reflexivity.
  - destruct (os_Open E (tenantFile c)); [|discriminate].
    intros [= ->]. reflexivity.
  - intros e. destruct (os_Open E (tenantFile c)) as [content|err].
    + intros Hst.
      destruct (tenantLoop_status E c ps (bufio_ScanLines E content) httpConfig 0)
        as [Hs|[[f Hs]|Hs]]; rewrite Hs in Hst; discriminate.
    + intros [= <-]. eauto.
Qed.

Lemma file_mode_result_witness :
  let E := Sample.env in
  let c := configureSilenceAddCmd E
             (setTenantFileFlag (withDurationArgs ["alertname=foo"])
                (Some "missing.conf")) in
  add E c
  = failed (ErrTenantFile "missing.conf"
              "open missing.conf: no such file or directory").
Proof.
  intros E c.
  destruct (prepare E c) as [ps|e] eqn:Hps; [|vm_compute in Hps; discriminate].
  exact (proj1 (file_mode_result E c ps _ eq_refl
                  ltac:(vm_compute; discriminate) Hps eq_refl)
           "open missing.conf: no such file or directory" eq_refl).
Defined.

Lemma tenantLoop_clients (E : Env) (c : silenceAddCmd) (ps : PostableSilence)
    (tenants : list string) (httpConfig : HTTPClientConfig) (n : nat) :
  Forall (λ p, ∃ t, t ∈ tenants
                    ∧ setHTTPTenantHeader httpConfig t (tenantHTTPHeader c)
                      = Some (httpclient p.1))
    (posts (trace (tenantLoop E c ps httpConfig n tenants))).
Proof.
  revert httpConfig n. induction tenants as [|t rest IH]; intros cfg n; cbn.
  - constructor.
  - destruct (setHTTPTenantHeader cfg t (tenantHTTPHeader c)) as [cfg'|] eqn:Hset;
      cbn; [|constructor].
    destruct (NewAlertmanagerClient E _) as [a|f] eqn:Ha; cbn; [|constructor].
    constructor.
    + exists t. split; [left|]. cbn.
      rewrite (NewAlertmanagerClient_httpclient _ _ _ Ha). exact Hset.
    + eapply Forall_impl; [apply IH|]. cbn.
      intros p (t' & Hin & Hcl). exists t'. split; [right; exact Hin|].
      rewrite <- Hcl. symmetry. eapply setHTTPTenantHeader_again, Hset.
Qed.

(** X14. The tenant header is the only thing [add] changes in the HTTP
    configuration: every submission, in every mode, is made by a client
    whose other headers and other settings are those of the configuration
    [NewAlertmanagerClientConfig] returned, however many tenants came
    before it. *)
Theorem only_tenant_header_changes (E : Env) (c : silenceAddCmd)
    (httpConfig : HTTPClientConfig) (p : AlertmanagerAPI * PostableSilence) :
  NewAlertmanagerClientConfig E = inl httpConfig →
  p ∈ posts (trace (add E c)) →
  (∀ h, h ≠ tenantHTTPHeader c →
     headerOf h p.1 = configHeader h httpConfig)
  ∧ otherSettings (httpclient p.1) = otherSettings httpConfig.
Proof.
  intros Hcfg Hin.
  assert (httpclient p.1 = httpConfig
          ∨ ∃ t, setHTTPTenantHeader httpConfig t (tenantHTTPHeader c)
                 = Some (httpclient p.1))
    as Hcl.
  { unfold add in Hin. destruct (prepare E c) as [ps|e]; cbn in Hin;
      [|apply elem_of_nil in Hin; destruct Hin].
    unfold dispatch in Hin. rewrite Hcfg in Hin.
    destruct (bool_decide (tenant c ≠ "")); cbn in Hin.
    - destruct (bool_decide (tenantFile c ≠ "")); cbn in Hin;
        [apply elem_of_nil in Hin; destruct Hin|].
      destruct (setHTTPTenantHeader httpConfig _ _) as [cfg'|] eqn:Hset;
        cbn in Hin; [|apply elem_of_nil in Hin; destruct Hin].
      destruct (NewAlertmanagerClient E _) as [a|f] eqn:Ha; cbn in Hin;
        [|apply elem_of_nil in Hin; destruct Hin].
      right. exists (tenant c).
      apply NewAlertmanagerClient_httpclient in Ha.
      destruct (PostSilences E 0 a ps); cbn in Hin;
        apply list_elem_of_singleton in Hin; subst p; cbn; rewrite Ha;
        exact Hset.
    - destruct (bool_decide (tenantFile c ≠ "")); cbn in Hin.
      + destruct (readTenantFromFile E (tenantFile c)) as [tenants|e];
          cbn in Hin; [|apply elem_of_nil in Hin; destruct Hin].
        pose proof (tenantLoop_clients E c ps tenants httpConfig 0) as HF.
        rewrite Forall_forall in HF. destruct (HF p Hin) as (t & _ & Ht).
        right. eauto.
      + destruct (NewAlertmanagerClient E httpConfig) as [a|f] eqn:Ha;
          cbn in Hin; [|apply elem_of_nil in Hin; destruct Hin].
        left. apply NewAlertmanagerClient_httpclient in Ha.
        destruct (PostSilences E 0 a ps); cbn in Hin;
          apply list_elem_of_singleton in Hin; subst p; exact Ha. }
  unfold headerOf. destruct Hcl as [->|[t Hset]].
  - split; reflexivity.
  - split.
    + intros h Hne. eapply setHTTPTenantHeader_other; [exact Hset|].
      congruence.
    + eapply setHTTPTenantHeader_settings, Hset.
Qed.

Lemma only_tenant_header_changes_witness :
  let E := Sample.env in
  let c := configureSilenceAddCmd E (withDurationArgs ["alertname=foo"]) in
  ∃ p, p ∈ posts (trace (add E c)) ∧ headerOf "Authorization" p.1 = None.
Proof.
  intros E c.
  destruct (posts (trace (add E c))) as [|p rest] eqn:Hposts;
    [vm_compute in Hposts; discriminate|].
  assert (p ∈ posts (trace (add E c))) as Hin by (rewrite Hposts; left).
  exists p. split; [rewrite <- Hposts; exact Hin|].
  exact (proj1 (only_tenant_header_changes E c _ p eq_refl Hin)
           "Authorization" ltac:(vm_compute; discriminate)).
Defined.

Lemma NewAlertmanagerClient_basic_auth (E : Env) (cfg cfg' : HTTPClientConfig) :
  NewAlertmanagerClient E cfg = inr FatalBasicAuthAndConfigFile →
  NewAlertmanagerClient E cfg' = inr FatalBasicAuthAndConfigFile.
Proof.
  unfold NewAlertmanagerClient. destruct (_ && _); [reflexivity|].
  destruct (NewClientFromConfig E cfg); discriminate.
Qed.

(** A loop that ends the process does so in [NewAlertmanagerClient]. *)
Lemma tenantLoop_exit_origin (E : Env) (c : silenceAddCmd) (ps : PostableSilence)
    (tenants : list string) (httpConfig : HTTPClientConfig) (n : nat) (f : fatal) :
  status (tenantLoop E c ps httpConfig n tenants) = Exit f →
  ∃ cfg, NewAlertmanagerClient E cfg = inr f.
Proof.
  revert httpConfig n. induction tenants as [|t rest IH]; intros cfg n; cbn;
    [discriminate|].
  destruct (setHTTPTenantHeader cfg t (tenantHTTPHeader c)) as [cfg'|]; cbn;
    [|discriminate].
  destruct (NewAlertmanagerClient E _) as [a|f'] eqn:Ha; cbn.
  - apply IH.
  - intros [= <-]. eauto.
Qed.

Lemma tenantLoop_exit (E : Env) (c : silenceAddCmd) (ps : PostableSilence)
    (tenants : list string) (httpConfig : HTTPClientConfig) (n : nat) (f : fatal) :
  status (tenantLoop E c ps httpConfig n tenants) = Exit f →
  (f = FatalBasicAuthAndConfigFile
   ∧ trace (tenantLoop E c ps httpConfig n tenants) = [])
  ∨ ∃ msg, f = FatalNewHTTPClient msg.
Proof.
  intros Hst.
  destruct (tenantLoop_exit_origin _ _ _ _ _ _ _ Hst) as [cfg Hf].
  assert (f = FatalBasicAuthAndConfigFile ∨ ∃ msg, f = FatalNewHTTPClient msg)
    as [->|Hmsg]; [|left|right; exact Hmsg].
  { unfold NewAlertmanagerClient in Hf. destruct (_ && _).
    - left. injection Hf as <-. reflexivity.
    - destruct (NewClientFromConfig E cfg); [|discriminate].
      right. injection Hf as <-. eauto. }
  split; [reflexivity|].
  destruct tenants as [|t rest]; cbn; [reflexivity|].
  destruct (setHTTPTenantHeader httpConfig t (tenantHTTPHeader c)) as [cfg'|];
    [|reflexivity].
  rewrite (NewAlertmanagerClient_basic_auth E _ cfg' Hf). reflexivity.
Qed.

(** X15. When [add] is ended by [Fatalf] for the conflict of the two
    tenant settings, for a configuration file that does not load, or for
    basic authentication given together with a configuration file,
    nothing has been sent or printed. *)
Theorem early_exit_sends_nothing (E : Env) (c : silenceAddCmd) (f : fatal) :
  status (add E c) = Exit f →
  (∀ msg, f ≠ FatalNewHTTPClient msg) →
  trace (add E c) = [].
Proof.
  intros Hst Hf. unfold add in *. destruct (prepare E c) as [ps|e];
    [|reflexivity].
  unfold dispatch in *.
  destruct (_ && _); [reflexivity|].
  destruct (NewAlertmanagerClientConfig E) as [cfg|f']; [|reflexivity].
  destruct (bool_decide (tenant c ≠ "")).
  - destruct (setHTTPTenantHeader cfg _ _) as [cfg'|]; [|reflexivity].
    destruct (NewAlertmanagerClient E _) as [a|f']; [|reflexivity].
    destruct (PostSilences E 0 a ps); discriminate.
  - destruct (bool_decide (tenantFile c ≠ "")).
    + destruct (readTenantFromFile E (tenantFile c)) as [tenants|e];
        [|reflexivity].
      apply tenantLoop_exit in Hst as [[_ Htr]|[msg ->]]; [exact Htr|].
      exfalso. eapply Hf. reflexivity.
    + destruct (NewAlertmanagerClient E cfg) as [a|f']; [|reflexivity].
      destruct (PostSilences E 0 a ps); discriminate.
Qed.

Lemma early_exit_sends_nothing_witness :
  trace (add Sample.env
           (configureSilenceAddCmd Sample.env (bothTenants ["alertname=foo"] "x")))
  = [].
Proof.
  apply (early_exit_sends_nothing Sample.env _ ConflictingTenantConfig).
  - reflexivity.
  - discriminate.
Defined.


(** ** Further properties: author, target and clock *)

(** X16. The author of every submitted payload is the value of
    [--author] when the flag is given, else the author bound from the
    configuration files, else the name of the current user, else, when that
    user cannot be looked up, the empty string. *)
Theorem author_of_payload (E : Env) (f : flags)
    (p : AlertmanagerAPI * PostableSilence) :
  p ∈ posts (trace (add E (configureSilenceAddCmd E f))) →
  CreatedBy p.2 =
    Some match flag_author f, config_author (configFlags E), user_Current E with
         | Some a, _, _ => a
         | None, Some a, _ => a
         | None, None, inl name => name
         | None, None, inr _ => ""
         end.
Proof.
  intros Hin. apply add_posts, prepare_inl in Hin
    as (parsed & s & e & _ & _ & _ & _ & _ & ->).
  cbn. unfold username, flagValue.
  destruct (flag_author f), (config_author (configFlags E)), (user_Current E);
    reflexivity.
Qed.

Lemma author_of_payload_witness :
  let E := Sample.env in
  let c := configureSilenceAddCmd E (withDurationArgs ["alertname=foo"]) in
  ∃ p, p ∈ posts (trace (add E c)) ∧ CreatedBy p.2 = Some "fgouteroux".
Proof.
  intros E c.
  destruct (posts (trace (add E c))) as [|p rest] eqn:Hposts;
    [vm_compute in Hposts; discriminate|].
  assert (p ∈ posts (trace (add E c))) as Hin by (rewrite Hposts; left).
  exists p. split; [rewrite <- Hposts; exact Hin|].
  exact (author_of_payload E (withDurationArgs ["alertname=foo"]) p Hin).
Defined.

Lemma tenantLoop_built (E : Env) (c : silenceAddCmd) (ps : PostableSilence)
    (tenants : list string) (httpConfig : HTTPClientConfig) (n : nat) :
  Forall (λ p, ∃ cfg, NewAlertmanagerClient E cfg = inl p.1)
    (posts (trace (tenantLoop E c ps httpConfig n tenants))).
Proof.
  revert httpConfig n. induction tenants as [|t rest IH]; intros cfg n; cbn.
  - constructor.
  - destruct (setHTTPTenantHeader cfg t (tenantHTTPHeader c)) as [cfg'|]; cbn;
      [|constructor].
    destruct (NewAlertmanagerClient E _) as [a|f] eqn:Ha; cbn; [|constructor].
    constructor; [eauto | apply IH].
Qed.

(** X17. Every submission of a run, for every tenant, goes to the same
    place: the host of the URL, or localhost:9093 when the URL has none;
    the scheme of the URL, or http when it has none; the path of the URL
    joined with /api/v2. And no submission is made at all when the URL
    carries credentials while a configuration file is given. *)
Theorem submission_target (E : Env) (c : silenceAddCmd)
    (p : AlertmanagerAPI * PostableSilence) :
  p ∈ posts (trace (add E c)) →
  address p.1 = (if bool_decide (Host (alertmanagerURL E) = "")
                 then "localhost:9093" else Host (alertmanagerURL E))
  ∧ schemes p.1 = (if bool_decide (Scheme (alertmanagerURL E) = "")
                   then ["http"] else [Scheme (alertmanagerURL E)])
  ∧ basePath p.1 = path_Join E (Path (alertmanagerURL E)) "/api/v2"
  ∧ (User (alertmanagerURL E) = None ∨ httpConfigFile E = "").
Proof.
  intros Hin.
  assert (∃ cfg, NewAlertmanagerClient E cfg = inl p.1) as [cfg Hcl].
  { unfold add in Hin. destruct (prepare E c) as [ps|e]; cbn in Hin;
      [|apply elem_of_nil in Hin; destruct Hin].
    unfold dispatch in Hin.
    destruct (_ && _); cbn in Hin; [apply elem_of_nil in Hin; destruct Hin|].
    destruct (NewAlertmanagerClientConfig E) as [cfg0|f]; cbn in Hin;
      [|apply elem_of_nil in Hin; destruct Hin].
    destruct (bool_decide (tenant c ≠ "")); cbn in Hin.
    - destruct (setHTTPTenantHeader cfg0 _ _) as [cfg'|]; cbn in Hin;
        [|apply elem_of_nil in Hin; destruct Hin].
      destruct (NewAlertmanagerClient E _) as [a|f] eqn:Ha; cbn in Hin;
        [|apply elem_of_nil in Hin; destruct Hin].
      destruct (PostSilences E 0 a ps); cbn in Hin;
        apply list_elem_of_singleton in Hin; subst p; eauto.
    - destruct (bool_decide (tenantFile c ≠ "")); cbn in Hin.
      + destruct (readTenantFromFile E (tenantFile c)) as [tenants|e];
          cbn in Hin; [|apply elem_of_nil in Hin; destruct Hin].
        pose proof (tenantLoop_built E c ps tenants cfg0 0) as HF.
        rewrite Forall_forall in HF. apply HF, Hin.
      + destruct (NewAlertmanagerClient E cfg0) as [a|f] eqn:Ha; cbn in Hin;
          [|apply elem_of_nil in Hin; destruct Hin].
        destruct (PostSilences E 0 a ps); cbn in Hin;
          apply list_elem_of_singleton in Hin; subst p; eauto. }
  unfold NewAlertmanagerClient in Hcl.
  destruct (bool_decide (User (alertmanagerURL E) ≠ None)) eqn:Hu;
    destruct (bool_decide (httpConfigFile E ≠ "")) eqn:Hc; cbn in Hcl;
    try discriminate;
    (destruct (NewClientFromConfig E cfg); [discriminate|]);
    injection Hcl as <-; cbn.
  all: assert (User (alertmanagerURL E) = None ∨ httpConfigFile E = "") as Hor.
  all: try (apply bool_decide_eq_false_1 in Hu; left;
            destruct (User (alertmanagerURL E)); [exfalso; apply Hu|]; done).
  all: try (apply bool_decide_eq_false_1 in Hc; right;
            destruct (decide (httpConfigFile E = "")); [done | contradiction]).
  all: repeat split; try exact Hor; unfold defaultAmHost, defaultAmPort.
  all: repeat case_bool_decide; try reflexivity; try contradiction;
         try congruence.
Qed.

Lemma submission_target_witness :
  let E := Sample.env in
  let c := configureSilenceAddCmd E (withDurationArgs ["alertname=foo"]) in
  ∃ p, p ∈ posts (trace (add E c))
       ∧ address p.1 = "localhost:9093" ∧ schemes p.1 = ["http"].
Proof.
  intros E c.
  destruct (posts (trace (add E c))) as [|p rest] eqn:Hposts;
    [vm_compute in Hposts; discriminate|].
  assert (p ∈ posts (trace (add E c))) as Hin by (rewrite Hposts; left).
  exists p. split; [rewrite <- Hposts; exact Hin|].
  destruct (submission_target E _ p Hin) as (Ha & Hs & _).
  split; [exact Ha | exact Hs].
Defined.

Lemma parseEach_setNow (E : Env) (now : Time) (ms : list string) :
  parseEach (setNow E now) ms = parseEach E ms.
Proof.
  induction ms as [|s rest IH]; cbn; [reflexivity|].
  destruct (compat_Matcher E s); [|reflexivity]. rewrite IH. reflexivity.
Qed.

Lemma parseMatchers_setNow (E : Env) (now : Time) (ms : list string) :
  parseMatchers (setNow E now) ms = parseMatchers E ms.
Proof.
  unfold parseMatchers.
  change (rewriteFirst (setNow E now) ms) with (rewriteFirst E ms).
  rewrite parseEach_setNow. reflexivity.
Qed.

Lemma tenantLoop_setNow (E : Env) (now : Time) (c : silenceAddCmd)
    (ps : PostableSilence) (tenants : list string)
    (httpConfig : HTTPClientConfig) (n : nat) :
  tenantLoop (setNow E now) c ps httpConfig n tenants
  = tenantLoop E c ps httpConfig n tenants.
Proof.
  revert httpConfig n. induction tenants as [|t rest IH]; intros cfg n; cbn;
    [reflexivity|].
  change (NewAlertmanagerClient (setNow E now)) with (NewAlertmanagerClient E).
  destruct (setHTTPTenantHeader cfg t _); [|reflexivity].
  destruct (NewAlertmanagerClient E _); [|reflexivity].
  rewrite IH. reflexivity.
Qed.

Lemma dispatch_setNow (E : Env) (now : Time) (c : silenceAddCmd)
    (ps : PostableSilence) :
  dispatch (setNow E now) c ps = dispatch E c ps.
Proof.
  unfold dispatch.
  change (NewAlertmanagerClientConfig (setNow E now))
    with (NewAlertmanagerClientConfig E).
  change (NewAlertmanagerClient (setNow E now)) with (NewAlertmanagerClient E).
  change (readTenantFromFile (setNow E now)) with (readTenantFromFile E).
  change (PostSilences (setNow E now)) with (PostSilences E).
  repeat case_match; try reflexivity. apply tenantLoop_setNow.
Qed.

(** X18. The clock matters only when no start is given: with an explicit
    start the whole run of [add] is the same whatever the clock reads.
    Without one, and without an explicit end, a later clock moves both
    ends of every submitted window and leaves its length unchanged. *)
Theorem explicit_start_ignores_clock (E : Env) (c : silenceAddCmd) (now : Time) :
  (start c ≠ "" → add (setNow E now) c = add E c)
  ∧ (start c = "" → end_ c = "" →
     ∀ p q, p ∈ posts (trace (add E c)) →
            q ∈ posts (trace (add (setNow E now) c)) →
       ∃ s e s' e', StartsAt p.2 = Some s ∧ EndsAt p.2 = Some e
                    ∧ StartsAt q.2 = Some s' ∧ EndsAt q.2 = Some e'
                    ∧ s = time_Now E ∧ s' = now
                    ∧ (e - s = e' - s')%Z).
Proof.
  split.
  - intros Hs. unfold add.
    assert (prepare (setNow E now) c = prepare E c) as ->.
    { unfold prepare. rewrite parseMatchers_setNow.
      destruct (parseMatchers E (matchers c)); [cbn|reflexivity].
      unfold resolveStart. rewrite !bool_decide_eq_true_2 by done.
      reflexivity. }
    destruct (prepare E c); [apply dispatch_setNow | reflexivity].
  - intros Hs Hend p q Hp Hq.
    apply add_posts, prepare_inl in Hp
      as (parsed & s & e & _ & Hst & He & _ & _ & ->).
    apply add_posts, prepare_inl in Hq
      as (parsed' & s' & e' & _ & Hst' & He' & _ & _ & ->).
    unfold resolveStart in Hst, Hst'.
    rewrite bool_decide_eq_false_2 in Hst by (intros Hne; apply Hne, Hs).
    rewrite bool_decide_eq_false_2 in Hst' by (intros Hne; apply Hne, Hs).
    injection Hst as <-. injection Hst' as <-.
    rewrite resolveEnd_duration in He, He' by done.
    unfold durationEnd, checkMaxDuration in He, He'. cbn in He, He'.
    destruct (model_ParseDuration E (duration c)) as [d [err|]];
      [discriminate|].
    destruct (bool_decide (d = 0%Z)); [discriminate|]. cbn in He, He'.
    destruct (bool_decide (d > _)%Z); [discriminate|]. cbn in He, He'.
    injection He as <-. injection He' as <-.
    exists (time_Now E), (Add (time_Now E) d), now, (Add now d).
    cbn. unfold Add. repeat split; lia.
Qed.

Lemma explicit_start_ignores_clock_witness :
  let c := configureSilenceAddCmd Sample.env
             (withWindow "2024-01-01T00:00:00Z" "2024-01-01T01:00:00Z" "1h" "12h") in
  add (setNow Sample.env 0%Z) c = add Sample.env c.
Proof.
  intros c.
  apply (proj1 (explicit_start_ignores_clock Sample.env c 0%Z)).
  vm_compute. discriminate.
Defined.

